(** * Resumable download: a model of [tools/download_resumable.py]

    The Python function [download_file_resumable] talks to the file
    system, to an HTTP server (through [requests]), to the wall clock and
    to standard output.  It is embedded here as a computation in a
    state-and-exception monad:

    - the mutable part (files, the file object of the [with] block, the
      lines written to standard output, the local variables of the
      function's frame) is the [State] record;
    - everything the outside world decides (what the server answers, how
      the body is cut into chunks, whether a system call fails, what the
      clock shows) is the read-only [World] record;
    - Python exceptions are the [Raise] outcome, the early [return] of the
      416 branch is the [Return_] outcome.

    Floating-point values only occur in what is printed; they are carried
    as exact rationals.  The conversion of an integer to a float fails
    when the integer is too large; this is modelled where the integer is
    a number the server wrote (the total size of line 47, computed from
    Content-Length).  The other integers that are converted (lines 16,
    61, 63 and 64) count bytes that a file holds or that were received,
    which keeps them far below the range of a float, about [2^1024], and
    their conversion is taken to succeed.

    What the model leaves out: [f.write] always succeeds and its bytes are
    in the file at once (no buffering, no full disk); an exception can
    only arise where the world is consulted, so a user interrupt arrives
    while the size is read, while the request is made, while the
    destination is opened or while the next chunk is awaited, and never
    in the middle of a statement or inside an [except] clause. *)

From Stdlib Require Import Ascii String ZArith QArith Lia.
From stdpp Require Import gmap strings list fin_maps pretty.

Local Open Scope string_scope.
Local Open Scope list_scope.
Local Open Scope Z_scope.

(** ** Values *)

Abbreviation bytes := (list Byte.byte).

(** The exceptions the modelled calls can raise.  [KeyboardInterrupt]
    derives from [BaseException] only; the others derive from
    [Exception]. *)
Inductive exn : Type :=
  | KeyboardInterrupt
  | OSError (what : string)
  | RequestException (what : string)
  | HTTPError (status : Z)
  | ValueError (what : string)
  | OverflowError (what : string).

Definition is_Exception (e : exn) : bool :=
  match e with
  | KeyboardInterrupt => false
  | _ => true
  end.

(** [open]'s mode argument; the function only ever uses ['wb'] and ['ab']. *)
Inductive file_mode : Type := wb | ab.

(** The object bound by [with open(dest_path, mode) as f].  [fo_writes]
    is the sequence of arguments of the [f.write] calls made so far. *)
Record FileObj : Type := mkFileObj {
  fo_path : string;
  fo_mode : file_mode;
  fo_closed : bool;
  fo_writes : list bytes
}.

(** What [requests.get] hands back.  Header names are stored in lower
    case, as the case-insensitive dictionary of [requests] compares them.
    [iter_content c] is the whole future of the generator
    [response.iter_content(chunk_size=c)]: the chunks it yields and then
    either plain exhaustion ([None]) or the exception that ends it. *)
Record Response : Type := mkResponse {
  status_code : Z;
  headers : gmap string string;
  iter_content : Z -> list bytes * option exn
}.

(** One line for each output statement of the function, with the values
    interpolated in it. *)
Inductive Msg : Type :=
  | MsgFoundExisting (dest_path : string) (size_mb : Q)
  | MsgAttemptResume (offset : Z)
  | MsgRangeNotSatisfiable
  | MsgSupportsResume
  | MsgRestart
  | MsgStarting
  | MsgUnexpectedStatus (status : Z)
  | MsgTotalSize (size_mb : Q)
  | MsgProgress (percent size_mb speed : Q)
  | MsgComplete
  | MsgPaused
  | MsgError (e : exn)
  | MsgRunAgain
  | MsgUsage
  | MsgExample.

(** ** The world and the state *)

Record World : Type := mkWorld {
  (** [os.path.getsize] failing although [os.path.exists] said yes (the
      file vanished in between, or cannot be stat-ed any more) *)
  w_getsize_fault : option exn;
  (** [requests.get(url, headers=..., stream=True, timeout=30)] *)
  w_get : string -> gmap string string -> exn + Response;
  (** [open(dest_path, mode)] failing *)
  w_open_fault : option exn;
  (** the value of the n-th call of [time.time()] *)
  w_clock : nat -> Q
}.

Record State : Type := mkState {
  fs : gmap string bytes;
  fobj : option FileObj;
  stdout : list Msg;
  clock_reads : nat;
  (* the frame of download_file_resumable *)
  current_size : Z;
  mode : file_mode;
  total_size : Z;
  downloaded_in_session : Z;
  start_time : Q
}.

(** The state in which an invocation starts: nothing printed, no file
    object, and a frame whose variables are not yet assigned (they read 0
    here; the function assigns each one before it reads it). *)
Definition init_state (fs0 : gmap string bytes) : State :=
  mkState fs0 None [] 0 0 wb 0 0 0%Q.

Definition set_fs v (s : State) : State :=
  mkState v (fobj s) (stdout s) (clock_reads s) (current_size s) (mode s)
          (total_size s) (downloaded_in_session s) (start_time s).
Definition set_fobj v (s : State) : State :=
  mkState (fs s) v (stdout s) (clock_reads s) (current_size s) (mode s)
          (total_size s) (downloaded_in_session s) (start_time s).
Definition set_stdout v (s : State) : State :=
  mkState (fs s) (fobj s) v (clock_reads s) (current_size s) (mode s)
          (total_size s) (downloaded_in_session s) (start_time s).
Definition set_clock_reads v (s : State) : State :=
  mkState (fs s) (fobj s) (stdout s) v (current_size s) (mode s)
          (total_size s) (downloaded_in_session s) (start_time s).
Definition set_current_size v (s : State) : State :=
  mkState (fs s) (fobj s) (stdout s) (clock_reads s) v (mode s)
          (total_size s) (downloaded_in_session s) (start_time s).
Definition set_mode v (s : State) : State :=
  mkState (fs s) (fobj s) (stdout s) (clock_reads s) (current_size s) v
          (total_size s) (downloaded_in_session s) (start_time s).
Definition set_total_size v (s : State) : State :=
  mkState (fs s) (fobj s) (stdout s) (clock_reads s) (current_size s) (mode s)
          v (downloaded_in_session s) (start_time s).
Definition set_downloaded_in_session v (s : State) : State :=
  mkState (fs s) (fobj s) (stdout s) (clock_reads s) (current_size s) (mode s)
          (total_size s) v (start_time s).
Definition set_start_time v (s : State) : State :=
  mkState (fs s) (fobj s) (stdout s) (clock_reads s) (current_size s) (mode s)
          (total_size s) (downloaded_in_session s) v.

(** ** The monad *)

Inductive Outcome (A : Type) : Type :=
  | Val (a : A)        (* the statement ran to its end *)
  | Return_            (* a [return] statement was executed *)
  | Raise (e : exn).   (* an exception is propagating *)
Arguments Val {A} a.
Arguments Return_ {A}.
Arguments Raise {A} e.

Definition M (A : Type) : Type := State -> Outcome A * State.

Definition ret {A} (a : A) : M A := fun s => (Val a, s).
Definition bind {A B} (m : M A) (k : A -> M B) : M B := fun s =>
  match m s with
  | (Val a, s') => k a s'
  | (Return_, s') => (Return_, s')
  | (Raise e, s') => (Raise e, s')
  end.
Definition raise {A} (e : exn) : M A := fun s => (Raise e, s).
Definition return_ {A} : M A := fun s => (Return_, s).
Definition read {A} (f : State -> A) : M A := fun s => (Val (f s), s).
Definition modify (f : State -> State) : M unit := fun s => (Val tt, f s).
Definition pass : M unit := ret tt.

Declare Scope py_scope.
Delimit Scope py_scope with py.
Notation "'let!' x ':=' m 'in' k" := (bind m (fun x => k))
  (at level 10, x name, m at level 100, k at level 200) : py_scope.
Notation "m '>>' k" := (bind m (fun _ => k))
  (at level 90, right associativity) : py_scope.
Local Open Scope py_scope.

(** [try: body / except KeyboardInterrupt: on_kbd / except Exception as e:
    on_exc e].  A [return] inside [body] leaves the statement, and so does
    an exception neither clause matches. *)
Definition try_except {A} (body : M A) (on_kbd : M A) (on_exc : exn -> M A)
  : M A := fun s =>
  match body s with
  | (Raise KeyboardInterrupt, s') => on_kbd s'
  | (Raise e, s') => if is_Exception e then on_exc e s' else (Raise e, s')
  | r => r
  end.

(** A function call: a [return] inside the callee ends the callee only,
    and a function that falls off its end returns [None] as well. *)
Inductive Completion : Type :=
  | ReturnsNone
  | Propagates (e : exn).

Definition call (body : M unit) (s : State) : Completion * State :=
  match body s with
  | (Val _, s') => (ReturnsNone, s')
  | (Return_, s') => (ReturnsNone, s')
  | (Raise e, s') => (Propagates e, s')
  end.

(** ** The calls the function makes *)

Section Engine.

Variable w : World.

(** [print(...)] and [sys.stdout.write(...)]; [sys.stdout.flush()] changes
    nothing that is modelled. *)
Definition print (m : Msg) : M unit :=
  modify (fun s => set_stdout (stdout s ++ [m]) s).

Definition os_path_exists (path : string) : M bool :=
  read (fun s => bool_decide (is_Some (fs s !! path))).

Definition os_path_getsize (path : string) : M Z := fun s =>
  match w_getsize_fault w with
  | Some e => (Raise e, s)
  | None =>
    match fs s !! path with
    | Some content => (Val (Z.of_nat (length content)), s)
    | None => (Raise (OSError "No such file or directory"), s)
    end
  end.

Definition requests_get (url : string) (hdrs : gmap string string)
  : M Response := fun s =>
  match w_get w url hdrs with
  | inl e => (Raise e, s)
  | inr response => (Val response, s)
  end.

(** [response.raise_for_status()] of [requests]: an [HTTPError] for the
    client and server error classes, nothing for any other status. *)
Definition raise_for_status (response : Response) : M unit :=
  if (400 <=? status_code response) && (status_code response <? 600)
  then raise (HTTPError (status_code response))
  else pass.

Definition time_time : M Q := fun s =>
  (Val (w_clock w (clock_reads s)), set_clock_reads (S (clock_reads s)) s).

(** [open(path, m)]: ['wb'] creates or truncates, ['ab'] creates or keeps. *)
Definition open_ (path : string) (m : file_mode) : M unit := fun s =>
  match w_open_fault w with
  | Some e => (Raise e, s)
  | None =>
    let content :=
      match m with
      | wb => []
      | ab => default [] (fs s !! path)
      end in
    (Val tt, set_fobj (Some (mkFileObj path m false []))
                      (set_fs (<[path := content]> (fs s)) s))
  end.

(** [f.write(chunk)].  Both modes write at the end of what the file holds:
    ['ab'] by definition, ['wb'] because the position only moves forward
    from the truncated start. *)
Definition f_write (chunk : bytes) : M unit := fun s =>
  match fobj s with
  | Some f =>
    if fo_closed f
    then (Raise (ValueError "I/O operation on closed file"), s)
    else
      (Val tt,
       set_fobj (Some (mkFileObj (fo_path f) (fo_mode f) false
                                 (fo_writes f ++ [chunk])))
                (set_fs (<[fo_path f :=
                            default [] (fs s !! fo_path f) ++ chunk]> (fs s))
                        s))
  | None => (Raise (ValueError "no file object"), s)
  end.

Definition close_ (s : State) : State :=
  match fobj s with
  | Some f =>
    set_fobj (Some (mkFileObj (fo_path f) (fo_mode f) true (fo_writes f))) s
  | None => s
  end.

(** [with open(path, m) as f: body]: the file object is closed however
    the body is left. *)
Definition with_open {A} (path : string) (m : file_mode) (body : M A)
  : M A := fun s =>
  match open_ path m s with
  | (Val _, s1) => let (r, s2) := body s1 in (r, close_ s2)
  | (Return_, s1) => (Return_, s1)
  | (Raise e, s1) => (Raise e, s1)
  end.

(** [for chunk in <generator>: step chunk] *)
Fixpoint for_chunks (step : bytes -> M unit) (chunks : list bytes)
  (stop : option exn) : M unit :=
  match chunks with
  | [] =>
    match stop with
    | None => pass
    | Some e => raise e
    end
  | chunk :: rest => step chunk >> for_chunks step rest stop
  end.

(** ** [int(str)] *)

(** The characters [int] skips at both ends of a [str] whose characters
    are below 256, as those of a header value are: the blanks of ASCII
    (tab, line feed, vertical tab, form feed, carriage return, space) and
    the two other blanks of Latin-1, NEL and the no-break space.  The
    separators 28 to 31 are not skipped. *)
Definition is_space (c : ascii) : bool :=
  let n := Z.of_nat (nat_of_ascii c) in
  ((9 <=? n) && (n <=? 13)) || (n =? 32) || (n =? 133) || (n =? 160).

Definition digit_val (c : ascii) : option Z :=
  let n := Z.of_nat (nat_of_ascii c) in
  if (48 <=? n) && (n <=? 57) then Some (n - 48) else None.

(** Digits, with single underscores allowed between two digits. *)
Fixpoint parse_digits (acc : Z) (after_digit : bool) (l : list ascii)
  : option Z :=
  match l with
  | [] => if after_digit then Some acc else None
  | c :: rest =>
    match digit_val c with
    | Some d => parse_digits (acc * 10 + d) true rest
    | None =>
      if Ascii.eqb c "_" && after_digit
      then parse_digits acc false rest
      else None
    end
  end.

Fixpoint lstrip (l : list ascii) : list ascii :=
  match l with
  | c :: rest => if is_space c then lstrip rest else l
  | [] => []
  end.

Definition strip (l : list ascii) : list ascii :=
  rev (lstrip (rev (lstrip l))).

(** CPython refuses to convert a decimal numeral of more than 4300
    digits (the default of [sys.set_int_max_str_digits]); underscores, the
    sign and the blanks around do not count. *)
Definition max_str_digits : nat := 4300.

Definition is_digit (c : ascii) : bool :=
  match digit_val c with
  | Some _ => true
  | None => false
  end.

Definition parse_numeral (l : list ascii) : option Z :=
  if (max_str_digits <? length (List.filter is_digit l))%nat
  then None
  else parse_digits 0 false l.

Definition int_of_string (s : string) : option Z :=
  match strip (list_ascii_of_string s) with
  | c :: rest =>
    if Ascii.eqb c "-" then Z.opp <$> parse_numeral rest
    else if Ascii.eqb c "+" then parse_numeral rest
    else parse_numeral (c :: rest)
  | [] => None
  end.

(** [int(response.headers.get('content-length', 0))]: the default [0]
    when the header is missing, [None] here when [int] rejects its
    value. *)
Definition declared_length (response : Response) : option Z :=
  match headers response !! "content-length" with
  | None => Some 0
  | Some v => int_of_string v
  end.

(** The [ValueError] of a conversion that fails.  Its message goes on
    with the rejected literal, or reports the digit limit; only its
    beginning is kept here. *)
Definition bad_length : exn :=
  ValueError "invalid literal for int() with base 10".

Definition content_length (response : Response) : M Z :=
  match declared_length response with
  | Some n => ret n
  | None => raise bad_length
  end.

(** [url.split('/')[-1]] *)
Fixpoint last_segment_from (cur : string) (url : string) : string :=
  match url with
  | EmptyString => cur
  | String c rest =>
    if Ascii.eqb c "/" then last_segment_from EmptyString rest
    else last_segment_from (cur +:+ String c EmptyString) rest
  end.

Definition last_segment (url : string) : string :=
  last_segment_from EmptyString url.

(** ** [download_file_resumable], statement by statement *)

Definition default_chunk_size : Z := 1024 * 1024.

(** The divisor [(1024*1024)] of the sizes that are printed in MB. *)
Definition mib : Q := inject_Z (1024 * 1024).

(** [total_size / (1024*1024)] on line 47.  The true division of two
    integers rounds the quotient to the nearest double and raises
    [OverflowError] when that is beyond the largest one, which for this
    divisor is the case from [2^1044 - 2^990] on, in absolute value. *)
Definition float_limit : Z := 2 ^ 1044 - 2 ^ 990.

Definition mb_overflows (n : Z) : bool := float_limit <=? Z.abs n.

Definition total_overflow : exn :=
  OverflowError "integer division result too large for a float".

Definition total_in_mb (n : Z) : M Q :=
  if mb_overflows n then raise total_overflow
  else ret (inject_Z n / mib)%Q.

(** Lines 10-16: look at the destination. *)
Definition probe (dest_path : string) : M unit :=
  modify (set_current_size 0) >>
  modify (set_mode wb) >>
  let! found := os_path_exists dest_path in
  if found : bool then
    let! size := os_path_getsize dest_path in
    modify (set_current_size size) >>
    modify (set_mode ab) >>
    print (MsgFoundExisting dest_path (inject_Z size / mib))
  else pass.

(** Lines 18-21: the request headers. *)
Definition range_value (offset : Z) : string :=
  "bytes=" +:+ pretty offset +:+ "-".

Definition request_headers : M (gmap string string) :=
  let hdrs : gmap string string := ∅ in
  let! size := read current_size in
  if 0 <? size then
    let hdrs := <["Range" := range_value size]> hdrs in
    print (MsgAttemptResume size) >>
    ret hdrs
  else ret hdrs.

(** Lines 24-47: the request, the status dispatch and the total size. *)
Definition negotiate (url : string) (hdrs : gmap string string)
  : M Response :=
  let! response := requests_get url hdrs in
  (if status_code response =? 416 then
     print MsgRangeNotSatisfiable >>
     return_
   else pass) >>
  (if status_code response =? 206 then
     print MsgSupportsResume
   else if status_code response =? 200 then
     let! size := read current_size in
     if 0 <? size then
       print MsgRestart >>
       modify (set_current_size 0) >>
       modify (set_mode wb)
     else
       print MsgStarting
   else
     print (MsgUnexpectedStatus (status_code response)) >>
     raise_for_status response) >>
  let! declared := content_length response in
  modify (set_total_size declared) >>
  (if status_code response =? 206 then
     modify (fun s => set_total_size (total_size s + current_size s) s)
   else pass) >>
  let! total := read total_size in
  let! size_mb := total_in_mb total in
  print (MsgTotalSize size_mb) >>
  ret response.

(** Lines 50-51. *)
Definition stream_init : M unit :=
  let! t := time_time in
  modify (set_start_time t) >>
  modify (set_downloaded_in_session 0).

(** Line 61: [downloaded_in_session / elapsed if elapsed > 0 else 0]. *)
Definition speed_of (session : Z) (elapsed : Q) : Q :=
  if Qle_bool elapsed 0 then 0%Q else (inject_Z session / elapsed)%Q.

(** Line 63: [(current_size / total_size) * 100 if total_size > 0 else 0]. *)
Definition percent_of (size total : Z) : Q :=
  if 0 <? total
  then ((inject_Z size / inject_Z total) * inject_Z 100)%Q
  else 0%Q.

(** Lines 54-65: the body of the [for] loop. *)
Definition chunk_step (chunk : bytes) : M unit :=
  match chunk with
  | [] => pass
  | _ :: _ =>
    let len := Z.of_nat (length chunk) in
    f_write chunk >>
    modify (fun s => set_current_size (current_size s + len) s) >>
    modify (fun s =>
      set_downloaded_in_session (downloaded_in_session s + len) s) >>
    let! t := time_time in
    let! t0 := read start_time in
    let elapsed := (t - t0)%Q in
    let! session := read downloaded_in_session in
    let speed := speed_of session elapsed in
    let! size := read current_size in
    let! total := read total_size in
    let percent := percent_of size total in
    print (MsgProgress percent (inject_Z size / mib) (speed / mib))
  end.

(** Lines 49-65. *)
Definition stream (dest_path : string) (response : Response)
  (chunk_size : Z) : M unit :=
  let! m := read mode in
  with_open dest_path m
    (stream_init >>
     for_chunks chunk_step (iter_content response chunk_size).1
                           (iter_content response chunk_size).2).

(** Line 8. *)
Definition resolve_dest (url : string) (dest_path : option string)
  : string :=
  match dest_path with
  | None => last_segment url
  | Some p => p
  end.

(** The body of the function, lines 7-73. *)
Definition download_file_resumable_body (url : string)
  (dest_path : option string) (chunk_size : Z) : M unit :=
  let dest_path := resolve_dest url dest_path in
  probe dest_path >>
  let! hdrs := request_headers in
  try_except
    (let! response := negotiate url hdrs in
     stream dest_path response chunk_size >>
     print MsgComplete)
    (print MsgPaused)
    (fun e =>
       print (MsgError e) >>
       print MsgRunAgain).

Definition download_file_resumable (url : string)
  (dest_path : option string) (chunk_size : Z)
  : State -> Completion * State :=
  call (download_file_resumable_body url dest_path chunk_size).

(** Lines 75-82: the script entry point, [argv] being [sys.argv]. *)
Definition main (argv : list string) : State -> Completion * State :=
  match argv with
  | _ :: url :: rest =>
    download_file_resumable url (head rest) default_chunk_size
  | _ => call (print MsgUsage >> print MsgExample)
  end.

End Engine.

(** ** What the user sees *)

(** The text of an output line: literal pieces, numbers formatted with a
    fixed number of decimals ([{x:.1f}], [{x:.2f}]), and [str(e)]. *)
Inductive frag : Type :=
  | Lit (text : string)
  | Fixed (value : Q) (decimals : nat)
  | StrOf (e : exn).

Definition nl : string := String (ascii_of_nat 10) EmptyString.
Definition cr : string := String (ascii_of_nat 13) EmptyString.

(** The format strings of the source; [print] appends a newline,
    [sys.stdout.write] does not. *)
Definition render (m : Msg) : list frag :=
  match m with
  | MsgFoundExisting p mb =>
    [Lit "Found existing file: "; Lit p; Lit ", size: "; Fixed mb 2;
     Lit " MB"; Lit nl]
  | MsgAttemptResume n =>
    [Lit "Attempting to resume from byte "; Lit (pretty n); Lit "...";
     Lit nl]
  | MsgRangeNotSatisfiable =>
    [Lit "Range not satisfiable. The file might be already fully downloaded.";
     Lit nl]
  | MsgSupportsResume =>
    [Lit "Server supports resuming. Continuing download..."; Lit nl]
  | MsgRestart =>
    [Lit "Server does NOT support resuming (or sent full file). Restarting download...";
     Lit nl]
  | MsgStarting => [Lit "Starting download..."; Lit nl]
  | MsgUnexpectedStatus st =>
    [Lit "Unexpected status code: "; Lit (pretty st); Lit nl]
  | MsgTotalSize mb => [Lit "Total file size: "; Fixed mb 2; Lit " MB"; Lit nl]
  | MsgProgress percent mb speed =>
    [Lit cr; Lit "Progress: "; Fixed percent 1; Lit "% | "; Fixed mb 1;
     Lit " MB | Speed: "; Fixed speed 2; Lit " MB/s"]
  | MsgComplete => [Lit nl; Lit "Download complete!"; Lit nl]
  | MsgPaused =>
    [Lit nl; Lit "Download paused (interrupted by user). Run again to resume.";
     Lit nl]
  | MsgError e => [Lit nl; Lit "Error occurred: "; StrOf e; Lit nl]
  | MsgRunAgain => [Lit "Run the script again to resume."; Lit nl]
  | MsgUsage =>
    [Lit "Usage: python download_resumable.py <URL> [Output Filename]"; Lit nl]
  | MsgExample =>
    [Lit "Example: python download_resumable.py https://download.geofabrik.de/asia/china-latest.osm.pbf";
     Lit nl]
  end.

(** The percentage a line of text displays: the number that stands right
    before a piece starting with the percent sign, if there is one. *)
Fixpoint percent_shown (line : list frag) : option Q :=
  match line with
  | Fixed v _ :: ((Lit (String c _) :: _) as rest) =>
    if Ascii.eqb c "%" then Some v else percent_shown rest
  | _ :: rest => percent_shown rest
  | [] => None
  end.

(** The three ways an invocation can end, as the specification names
    them. *)
Inductive TerminalStatus : Type :=
  | Completed
  | Interrupted
  | Failed (reason : exn).

(** The outcome an invocation announces, read off the last lines of its
    output: "Download complete!" and "Range not satisfiable. The file
    might be already fully downloaded." announce completion, "Download
    paused (interrupted by user)..." an interruption, and "Error
    occurred: e" followed by "Run the script again to resume." a failure
    with reason [e]. *)
Definition reported_status (out : list Msg) : option TerminalStatus :=
  match rev out with
  | MsgComplete :: _ => Some Completed
  | MsgRangeNotSatisfiable :: _ => Some Completed
  | MsgPaused :: _ => Some Interrupted
  | MsgRunAgain :: MsgError e :: _ => Some (Failed e)
  | _ => None
  end.

(** ** Sizes and chunks *)

Definition total_len (chunks : list bytes) : Z :=
  Z.of_nat (length (concat chunks)).

Definition nonempty (chunk : bytes) : bool :=
  match chunk with
  | [] => false
  | _ :: _ => true
  end.

(** The generator [iter_content(chunk_size=c)] of a response whose body
    arrives whole and undecoded: consecutive pieces of [c] bytes, the last
    one shorter when [c] does not divide the length. *)
Fixpoint blocks_fuel (fuel : nat) (c : nat) (body : bytes) : list bytes :=
  match fuel, body with
  | S fuel', _ :: _ => take c body :: blocks_fuel fuel' c (drop c body)
  | _, _ => []
  end.

Definition blocks (c : Z) (body : bytes) : list bytes :=
  blocks_fuel (length body) (Z.to_nat c) body.

(** ** The exits of an invocation *)

Definition emit (m : Msg) (s : State) : State :=
  set_stdout (stdout s ++ [m]) s.

(** What the probe finds. *)
Definition probed_size (fs0 : gmap string bytes) (dest : string) : Z :=
  match fs0 !! dest with
  | Some content => Z.of_nat (length content)
  | None => 0
  end.

Definition probed_mode (fs0 : gmap string bytes) (dest : string)
  : file_mode :=
  match fs0 !! dest with
  | Some _ => ab
  | None => wb
  end.

(** The headers of the request that follows the probe. *)
Definition sent_headers (fs0 : gmap string bytes) (dest : string)
  : gmap string string :=
  if 0 <? probed_size fs0 dest
  then {[ "Range" := range_value (probed_size fs0 dest) ]}
  else ∅.

(** The probe can only fail where it asks for the size of a file it has
    found. *)
Definition probe_fault (w : World) (fs0 : gmap string bytes)
  (dest : string) : option exn :=
  match fs0 !! dest with
  | Some _ => w_getsize_fault w
  | None => None
  end.

(** The value [total_size] gets on lines 43-45. *)
Definition expected_total (fs0 : gmap string bytes) (dest : string)
  (response : Response) (declared : Z) : Z :=
  if status_code response =? 206
  then declared + probed_size fs0 dest
  else declared.

(** ** The exits, one by one

    For a given world and file system an invocation takes exactly one of
    eight ways out.  [exit_of] says which, [run_of_exit] what the
    invocation has done by then, and [download_file_resumable_exits] that
    this is what the code does. *)

Section Exits.

Variable w : World.
Variable fs0 : gmap string bytes.
Variable url : string.
Variable dest : string.
Variable chunk_size : Z.

Definition probe_msgs : list Msg :=
  match fs0 !! dest with
  | Some _ => [MsgFoundExisting dest (inject_Z (probed_size fs0 dest) / mib)]
  | None => []
  end ++
  (if 0 <? probed_size fs0 dest
   then [MsgAttemptResume (probed_size fs0 dest)]
   else []).

Definition after_probe : State :=
  mkState fs0 None probe_msgs 0 (probed_size fs0 dest) (probed_mode fs0 dest)
          0 0 0%Q.

Definition dispatched (response : Response) (s : State) : State :=
  if status_code response =? 206 then emit MsgSupportsResume s
  else if status_code response =? 200 then
    if 0 <? current_size s
    then set_mode wb (set_current_size 0 (emit MsgRestart s))
    else emit MsgStarting s
  else emit (MsgUnexpectedStatus (status_code response)) s.

(** Lines 43-45: the total size is assigned. *)
Definition totalled (response : Response) (declared : Z) (s : State)
  : State :=
  let total :=
    if status_code response =? 206 then declared + current_size s
    else declared in
  set_total_size total s.

(** Lines 43-47: and printed. *)
Definition sized (response : Response) (declared : Z) (s : State) : State :=
  let total :=
    if status_code response =? 206 then declared + current_size s
    else declared in
  emit (MsgTotalSize (inject_Z total / mib)) (set_total_size total s).

Definition opened (path : string) (s : State) : State :=
  set_fobj (Some (mkFileObj path (mode s) false []))
    (set_fs (<[path := match mode s with
                       | wb => []
                       | ab => default [] (fs s !! path)
                       end]> (fs s)) s).

Definition started (s : State) : State :=
  set_downloaded_in_session 0
    (set_start_time (w_clock w (clock_reads s))
       (set_clock_reads (S (clock_reads s)) s)).

Definition handled (e : exn) (s : State) : State :=
  match e with
  | KeyboardInterrupt => emit MsgPaused s
  | _ => emit MsgRunAgain (emit (MsgError e) s)
  end.

Definition status_raises (response : Response) : bool :=
  negb (status_code response =? 206) && negb (status_code response =? 200)
  && (400 <=? status_code response) && (status_code response <? 600).

Inductive Exit : Type :=
  (* line 14 raises: the exception leaves the function *)
  | ExitProbe (e : exn)
  (* line 24 raises *)
  | ExitGet (e : exn)
  (* line 28: the early return *)
  | Exit416 (response : Response)
  (* line 41 raises *)
  | ExitStatus (response : Response)
  (* line 43 raises *)
  | ExitLength (response : Response)
  (* line 47 raises *)
  | ExitTotal (response : Response) (declared : Z)
  (* line 49 raises *)
  | ExitOpen (response : Response) (declared : Z) (e : exn)
  (* the loop of lines 53-65 is entered; it ends as the generator does *)
  | ExitStream (response : Response) (declared : Z).

Definition exit_of : Exit :=
  match probe_fault w fs0 dest with
  | Some e => ExitProbe e
  | None =>
    match w_get w url (sent_headers fs0 dest) with
    | inl e => ExitGet e
    | inr response =>
      if status_code response =? 416 then Exit416 response
      else if status_raises response then ExitStatus response
      else
        match declared_length response with
        | None => ExitLength response
        | Some declared =>
          if mb_overflows (expected_total fs0 dest response declared)
          then ExitTotal response declared
          else
            match w_open_fault w with
            | Some e => ExitOpen response declared e
            | None => ExitStream response declared
            end
        end
    end
  end.

(** The state in which the [for] loop is entered. *)
Definition loop_entry (response : Response) (declared : Z) : State :=
  started (opened dest (sized response declared
                          (dispatched response after_probe))).

(** The loop itself, run from there. *)
Definition loop_run (response : Response) (declared : Z)
  : Outcome unit * State :=
  for_chunks (chunk_step w) (iter_content response chunk_size).1
             (iter_content response chunk_size).2
             (loop_entry response declared).

Definition run_of_exit (x : Exit) : Completion * State :=
  match x with
  | ExitProbe e => (Propagates e, init_state fs0)
  | ExitGet e => (ReturnsNone, handled e after_probe)
  | Exit416 response =>
    (ReturnsNone, emit MsgRangeNotSatisfiable after_probe)
  | ExitStatus response =>
    (ReturnsNone,
     handled (HTTPError (status_code response))
             (dispatched response after_probe))
  | ExitLength response =>
    (ReturnsNone, handled bad_length (dispatched response after_probe))
  | ExitTotal response declared =>
    (ReturnsNone,
     handled total_overflow
             (totalled response declared (dispatched response after_probe)))
  | ExitOpen response declared e =>
    (ReturnsNone,
     handled e (sized response declared (dispatched response after_probe)))
  | ExitStream response declared =>
    let r := loop_run response declared in
    (ReturnsNone,
     match r.1 with
     | Val _ => emit MsgComplete (close_ r.2)
     | Return_ => close_ r.2
     | Raise e => handled e (close_ r.2)
     end)
  end.

End Exits.

(** ** The loop, seen from outside *)

(** A progress line for a transfer whose total size is [total]. *)
Definition progress_for (total : Z) (m : Msg) : Prop :=
  exists size speed,
    m = MsgProgress (percent_of size total) (inject_Z size / mib) speed.

(** What a stretch of the loop that wrote [written] through the file
    object [f], onto a file that held [old], has done to the state. *)
Definition streamed (f : FileObj) (old : bytes) (s s' : State)
  (written : list bytes) : Prop :=
  fobj s' = Some (mkFileObj (fo_path f) (fo_mode f) false
                            (fo_writes f ++ written))
  /\ fs s' = <[fo_path f := old ++ concat written]> (fs s)
  /\ current_size s' = current_size s + total_len written
  /\ downloaded_in_session s'
     = downloaded_in_session s + total_len written
  /\ mode s' = mode s
  /\ total_size s' = total_size s
  /\ start_time s' = start_time s
  /\ exists lines,
       stdout s' = stdout s ++ lines
       /\ length lines = length written
       /\ Forall (progress_for (total_size s)) lines.

(** How a generator that stops with [stop] ends the loop. *)
Definition stop_outcome (stop : option exn) : Outcome unit :=
  match stop with
  | None => Val tt
  | Some e => Raise e
  end.

(** ** What negotiation settles *)

(** The mode the destination is opened with. *)
Definition negotiated_mode (fs0 : gmap string bytes) (dest : string)
  (response : Response) : file_mode :=
  if (status_code response =? 200) && (0 <? probed_size fs0 dest)
  then wb
  else probed_mode fs0 dest.

(** The value of [current_size] when the loop starts. *)
Definition resume_offset (fs0 : gmap string bytes) (dest : string)
  (response : Response) : Z :=
  if status_code response =? 200 then 0 else probed_size fs0 dest.

(** What the destination holds once it has been opened. *)
Definition kept_content (fs0 : gmap string bytes) (dest : string)
  (response : Response) : bytes :=
  match negotiated_mode fs0 dest response with
  | wb => []
  | ab => default [] (fs0 !! dest)
  end.

(** The status an exception caught by the handlers is announced as. *)
Definition status_of_exn (e : exn) : TerminalStatus :=
  match e with
  | KeyboardInterrupt => Interrupted
  | _ => Failed e
  end.

(** What each exit announces; the probe's exit announces nothing. *)
Definition exit_status (chunk_size : Z) (x : Exit) : option TerminalStatus :=
  match x with
  | ExitProbe _ => None
  | ExitGet e => Some (status_of_exn e)
  | Exit416 _ => Some Completed
  | ExitStatus response => Some (Failed (HTTPError (status_code response)))
  | ExitLength _ => Some (Failed bad_length)
  | ExitTotal _ _ => Some (Failed total_overflow)
  | ExitOpen _ _ e => Some (status_of_exn e)
  | ExitStream response _ =>
    match (iter_content response chunk_size).2 with
    | None => Some Completed
    | Some e => Some (status_of_exn e)
    end
  end.

(** A line that is not a progress line. *)
Definition quiet (m : Msg) : Prop :=
  match m with
  | MsgProgress _ _ _ => False
  | _ => True
  end.

(** The state an invocation that reached the loop ends in, up to what it
    printed last. *)
Definition stream_end w fs0 dest chunk_size response declared : State :=
  close_ (loop_run w fs0 dest chunk_size response declared).2.

(** ** Servers and worlds to run the function in *)

Definition zeros (n : nat) : bytes := replicate n Byte.x00.

Definition seconds (n : nat) : Q := inject_Z (Z.of_nat n).

(** A response whose body arrives whole, in pieces of the size asked
    for. *)
Definition whole_response (status : Z) (hdrs : gmap string string)
  (body : bytes) : Response :=
  mkResponse status hdrs (fun c => (blocks c body, None)).

Definition length_header (n : Z) : gmap string string :=
  {[ "content-length" := pretty n ]}.

(** A world in which every request gets the same answer and nothing
    else goes wrong. *)
Definition fixed_server (response : Response) : World :=
  mkWorld None (fun _ _ => inr response) None seconds.

(** A server that ignores [Range] and always sends the whole resource. *)
Definition plain_server (body : bytes) : World :=
  fixed_server
    (whole_response 200 (length_header (Z.of_nat (length body))) body).

(** A server that honours the header [Range: bytes=offset-]: the rest of
    the resource with 206, or 416 when there is no rest; the whole
    resource with 200 for any other request. *)
Definition range_server (body : bytes) (offset : Z) : World :=
  mkWorld None
    (fun _ hdrs =>
       if decide (hdrs !! "Range" = Some (range_value offset)) then
         if Z.of_nat (length body) <=? offset
         then inr (whole_response 416 ∅ [])
         else inr (whole_response 206
                     (length_header (Z.of_nat (length body) - offset))
                     (drop (Z.to_nat offset) body))
       else
         inr (whole_response 200
                (length_header (Z.of_nat (length body))) body))
    None seconds.

(** A 206 response of three bytes that arrive as two bytes, an empty
    chunk and one byte. *)
Definition gappy_response : Response :=
  mkResponse 206 (length_header 3) (fun _ => ([zeros 2; []; zeros 1], None)).

(** A 200 response of three bytes that arrive one by one, whatever chunk
    size was asked for. *)
Definition trickling_response : Response :=
  mkResponse 200 (length_header 3)
    (fun _ => ([zeros 1; zeros 1; zeros 1], None)).

(** A world in which the destination can no longer be examined once it
    has been found. *)
Definition vanishing_file : World :=
  mkWorld (Some (OSError "No such file or directory"))
          (fun _ _ => inr (whole_response 200 ∅ (zeros 3))) None seconds.

(** A world in which the user interrupts while the destination is being
    examined. *)
Definition early_interrupt : World :=
  mkWorld (Some KeyboardInterrupt)
          (fun _ _ => inr (whole_response 200 ∅ (zeros 3))) None seconds.

(** An invocation of the function on a file system [fs0]: how it
    completes and the state it leaves. *)
Definition invoke (w : World) (url : string) (dest_path : option string)
  (chunk_size : Z) (fs0 : gmap string bytes) : Completion * State :=
  download_file_resumable w url dest_path chunk_size (init_state fs0).

(** The address and the destination used in the examples. *)
Definition example_url : string := "http://host/dir/f.bin".

(** ** Several invocations in a row *)

(** The destination holds nothing that is not the beginning of [body]. *)
Definition holds_prefix (body : bytes) (files : gmap string bytes)
  (dest : string) : Prop :=
  match files !! dest with
  | Some content => content `prefix_of` body
  | None => True
  end.

(** An answer a server holding [body] may give to the request that
    follows a probe finding [offset] bytes: the resource from its start
    with 200, the resource from [offset] on with 206, or an error status;
    in the first two cases the stream may break off anywhere. *)
Definition serves (body : bytes) (offset chunk_size : Z)
  (response : Response) : Prop :=
  (status_code response = 200
   /\ concat (iter_content response chunk_size).1 `prefix_of` body)
  \/ (status_code response = 206
      /\ concat (iter_content response chunk_size).1
           `prefix_of` drop (Z.to_nat offset) body)
  \/ 400 <= status_code response < 600.

(** An answer that delivers all there is to deliver. *)
Definition delivers_all (body : bytes) (offset chunk_size : Z)
  (response : Response) : Prop :=
  (iter_content response chunk_size).2 = None
  /\ ((status_code response = 200
       /\ concat (iter_content response chunk_size).1 = body)
      \/ (status_code response = 206
          /\ concat (iter_content response chunk_size).1
             = drop (Z.to_nat offset) body)).

(** The script run once in each of the worlds [ws], one run after the
    other on the files the previous one left. *)
Fixpoint invoke_all (ws : list World) (url : string)
  (dest_path : option string) (chunk_size : Z) (fs0 : gmap string bytes)
  : gmap string bytes :=
  match ws with
  | [] => fs0
  | w :: rest =>
    invoke_all rest url dest_path chunk_size
               (fs (invoke w url dest_path chunk_size fs0).2)
  end.

(** A 200 answer that breaks off after the first two of five bytes. *)
Definition broken_response : Response :=
  mkResponse 200 (length_header 5)
    (fun _ => ([zeros 2], Some (RequestException "Connection broken"))).

(** ** The progress display *)

Definition is_progress (m : Msg) : bool :=
  match m with
  | MsgProgress _ _ _ => true
  | _ => false
  end.

(** The progress lines among the lines of an output, in order. *)
Definition progress_lines (out : list Msg) : list Msg :=
  List.filter is_progress out.

(** The values the byte counter takes after each of the writes, when it
    starts from [start]. *)
Fixpoint running_sizes (start : Z) (written : list bytes) : list Z :=
  match written with
  | [] => []
  | chunk :: rest =>
    (start + Z.of_nat (length chunk))
      :: running_sizes (start + Z.of_nat (length chunk)) rest
  end.

(** A progress line that displays the counter value [size] for a transfer
    of total size [total]. *)
Definition shows_size (total : Z) (m : Msg) (size : Z) : Prop :=
  exists speed,
    m = MsgProgress (percent_of size total) (inject_Z size / mib) speed.

(** ** File names *)

Fixpoint has_slash (s : string) : bool :=
  match s with
  | EmptyString => false
  | String c rest => Ascii.eqb c "/" || has_slash rest
  end.

(** * Proofs *)

(** ** The helpers on a few inputs *)

Example last_segment_of_url :
  last_segment "https://download.geofabrik.de/asia/china-latest.osm.pbf"
  = "china-latest.osm.pbf".
Proof. vm_compute. reflexivity. Qed.

Example range_value_of_offset : range_value 4000000 = "bytes=4000000-".
Proof. vm_compute. reflexivity. Qed.

Example int_of_string_accepts :
  (int_of_string "6000000", int_of_string " +1_000 ", int_of_string "-5")
  = (Some 6000000, Some 1000, Some (-5)).
Proof. vm_compute. reflexivity. Qed.

Example int_of_string_rejects :
  (int_of_string "12a", int_of_string "1__0", int_of_string "+",
   int_of_string EmptyString)
  = (None, None, None, None).
Proof. vm_compute. reflexivity. Qed.

(** A separator of the range 28-31 is not a blank for [int]; the
    no-break space is. *)
Example int_of_string_blanks :
  (int_of_string (String (ascii_of_nat 28) "5"),
   int_of_string (String (ascii_of_nat 160) "5"),
   int_of_string (String (ascii_of_nat 9) "5" +:+ nl))
  = (None, Some 5, Some 5).
Proof. vm_compute. reflexivity. Qed.

Example int_of_string_digit_limit :
  (int_of_string (string_of_list_ascii (replicate 4300 "0"%char)),
   int_of_string (string_of_list_ascii (replicate 4301 "0"%char)))
  = (Some 0, None).
Proof. vm_compute. reflexivity. Qed.

(** The largest total line 47 can print, and the first one it cannot. *)
Example mb_overflows_at_the_limit :
  (mb_overflows (float_limit - 1), mb_overflows float_limit,
   mb_overflows (1 - float_limit), mb_overflows (- float_limit))
  = (false, true, false, true).
Proof. vm_compute. reflexivity. Qed.

Example blocks_of_five_by_two :
  blocks 2 (zeros 5) = [zeros 2; zeros 2; zeros 1].
Proof. vm_compute. reflexivity. Qed.

(** ** The code takes the exit [exit_of] names *)

Lemma probe_headers w fs0 dest {A} (k : gmap string string -> M A) :
  probe_fault w fs0 dest = None ->
  bind (probe w dest) (fun _ => bind request_headers k) (init_state fs0)
  = k (sent_headers fs0 dest) (after_probe fs0 dest).
Proof.
  unfold probe_fault, sent_headers, after_probe, probe_msgs, probed_size, probed_mode.
  intros Hp.
  unfold probe, request_headers, bind, modify, os_path_exists, os_path_getsize, read, print, ret, pass. cbn.
  destruct (fs0 !! dest) as [content|] eqn:E; cbn.
  - rewrite Hp, E. cbn. destruct (0 <? Z.of_nat (length content)) eqn:E2; cbn; reflexivity.
  - reflexivity.
Qed.

Lemma probe_raises w fs0 dest {A} (k : gmap string string -> M A) e :
  probe_fault w fs0 dest = Some e ->
  bind (probe w dest) (fun _ => bind request_headers k) (init_state fs0)
  = (Raise e, init_state fs0).
Proof.
  unfold probe_fault.
  intros Hp.
  unfold probe, request_headers, bind, modify, os_path_exists, os_path_getsize, read, print, ret, pass. cbn.
  destruct (fs0 !! dest) as [content|] eqn:E; [|discriminate]. cbn.
  rewrite Hp. reflexivity.
Qed.

Lemma negotiate_eq w url hdrs s :
  negotiate w url hdrs s =
  match w_get w url hdrs with
  | inl e => (Raise e, s)
  | inr response =>
    if status_code response =? 416
    then (Return_, emit MsgRangeNotSatisfiable s)
    else if status_raises response
    then (Raise (HTTPError (status_code response)), dispatched response s)
    else
      match declared_length response with
      | None => (Raise bad_length, dispatched response s)
      | Some declared =>
        if mb_overflows
             (total_size (totalled response declared (dispatched response s)))
        then (Raise total_overflow,
              totalled response declared (dispatched response s))
        else (Val response, sized response declared (dispatched response s))
      end
  end.
Proof.
  unfold negotiate, requests_get, bind at 1.
  destruct (w_get w url hdrs) as [e|response]; [reflexivity|].
  unfold status_raises, dispatched, sized, totalled, content_length,
    raise_for_status, total_in_mb.
  destruct (status_code response =? 416) eqn:E416; [reflexivity|].
  destruct (status_code response =? 206) eqn:E206.
  { cbn. destruct (declared_length response) as [d|]; [|reflexivity].
    cbn. destruct (mb_overflows _); reflexivity. }
  destruct (status_code response =? 200) eqn:E200.
  { unfold bind, read, print, modify, ret, pass, raise. cbn.
    destruct (0 <? current_size s); cbn;
      (destruct (declared_length response) as [d|]; [|reflexivity]);
      cbn; destruct (mb_overflows _); reflexivity. }
  cbn.
  destruct ((400 <=? status_code response) && (status_code response <? 600));
    cbn; [reflexivity|].
  destruct (declared_length response) as [d|]; [|reflexivity].
  cbn. destruct (mb_overflows _); reflexivity.
Qed.

Lemma stream_eq w dest response chunk_size s :
  stream w dest response chunk_size s =
  match w_open_fault w with
  | Some e => (Raise e, s)
  | None =>
    let r := for_chunks (chunk_step w) (iter_content response chunk_size).1
               (iter_content response chunk_size).2
               (started w (opened dest s)) in
    (r.1, close_ r.2)
  end.
Proof.
  unfold stream, with_open, open_, bind at 1, read.
  destruct (w_open_fault w) as [e|]; [reflexivity|].
  unfold stream_init, time_time, bind at 1. cbn.
  fold (opened dest s). fold (started w (opened dest s)).
  destruct (for_chunks _ _ _ _) as [o s']. reflexivity.
Qed.

Lemma handled_eq e s :
  (if is_Exception e
   then (print (MsgError e) >> print MsgRunAgain) s
   else (print MsgPaused) s) = (Val tt, handled e s).
Proof. destruct e; reflexivity. Qed.

Lemma try_except_handlers (body : M unit) s :
  try_except body (print MsgPaused)
    (fun e => print (MsgError e) >> print MsgRunAgain) s
  = match body s with
    | (Raise e, s') => (Val tt, handled e s')
    | r => r
    end.
Proof.
  unfold try_except. destruct (body s) as [[| |e] s']; try reflexivity.
  destruct e; reflexivity.
Qed.

Lemma totalled_total fs0 dest response declared :
  total_size (totalled response declared
                (dispatched response (after_probe fs0 dest)))
  = expected_total fs0 dest response declared.
Proof.
  unfold totalled, dispatched, expected_total.
  destruct (status_code response =? 206) eqn:E206; [reflexivity|].
  destruct (status_code response =? 200); [|reflexivity].
  destruct (0 <? current_size _); reflexivity.
Qed.

Lemma download_file_resumable_exits w fs0 url dest_path chunk_size :
  download_file_resumable w url dest_path chunk_size (init_state fs0)
  = run_of_exit w fs0 (resolve_dest url dest_path) chunk_size
      (exit_of w fs0 url (resolve_dest url dest_path)).
Proof.
  set (dest := resolve_dest url dest_path).
  unfold download_file_resumable, download_file_resumable_body, call.
  fold dest. unfold exit_of.
  destruct (probe_fault w fs0 dest) as [e|] eqn:Hp.
  { rewrite (probe_raises _ _ _ _ e Hp). reflexivity. }
  rewrite (probe_headers _ _ _ _ Hp), try_except_handlers.
  unfold bind at 1. rewrite negotiate_eq.
  destruct (w_get w url (sent_headers fs0 dest)) as [e|response];
    [reflexivity|].
  destruct (status_code response =? 416); [reflexivity|].
  destruct (status_raises response); [reflexivity|].
  destruct (declared_length response) as [declared|]; [|reflexivity].
  rewrite totalled_total.
  destruct (mb_overflows (expected_total fs0 dest response declared));
    [reflexivity|].
  unfold bind at 1. rewrite stream_eq.
  destruct (w_open_fault w) as [e|]; [reflexivity|].
  cbn [run_of_exit]. unfold loop_run, loop_entry. cbn zeta.
  destruct (for_chunks _ _ _ _) as [[| |e] s']; reflexivity.
Qed.

(** ** The loop *)

Lemma total_len_nil : total_len [] = 0.
Proof. reflexivity. Qed.

Lemma total_len_cons c cs :
  total_len (c :: cs) = Z.of_nat (length c) + total_len cs.
Proof. unfold total_len. cbn. rewrite length_app. lia. Qed.

Lemma streamed_refl f old s :
  fobj s = Some f -> fo_closed f = false -> fs s !! fo_path f = Some old ->
  streamed f old s s [].
Proof.
  intros Hf Hc Hfs. unfold streamed. cbn [concat].
  rewrite !app_nil_r, total_len_nil, !Z.add_0_r, insert_id by done.
  destruct f as [p m c ws]; cbn in *; subst c.
  repeat split; try done.
  exists []. rewrite app_nil_r. repeat split; auto.
Qed.

Lemma chunk_step_nonempty w b c s f old :
  fobj s = Some f -> fo_closed f = false -> fs s !! fo_path f = Some old ->
  exists s1,
    chunk_step w (b :: c) s = (Val tt, s1)
    /\ streamed f old s s1 [b :: c].
Proof.
  intros Hf Hc Hfs.
  unfold chunk_step, f_write, bind at 1. rewrite Hf, Hc, Hfs.
  cbn. eexists; split; [reflexivity|].
  unfold streamed; cbn. unfold total_len; cbn. rewrite !app_nil_r.
  repeat split; try done.
  eexists [_]; repeat split; try done.
  constructor; [|constructor]. eexists _, _. reflexivity.
Qed.

Lemma total_len_app l1 l2 : total_len (l1 ++ l2) = total_len l1 + total_len l2.
Proof. unfold total_len. rewrite concat_app, length_app. lia. Qed.

Lemma streamed_trans f old s s1 s2 w1 w2 :
  streamed f old s s1 w1 ->
  streamed (mkFileObj (fo_path f) (fo_mode f) false (fo_writes f ++ w1))
           (old ++ concat w1) s1 s2 w2 ->
  streamed f old s s2 (w1 ++ w2).
Proof.
  intros (Hf1 & Hfs1 & Hc1 & Hd1 & Hm1 & Ht1 & Hs1 & l1 & Ho1 & Hl1 & Hp1)
         (Hf2 & Hfs2 & Hc2 & Hd2 & Hm2 & Ht2 & Hs2 & l2 & Ho2 & Hl2 & Hp2).
  cbn in Hf2, Hfs2.
  unfold streamed.
  rewrite Hf2, Hfs2, Hfs1, insert_insert_eq, Hc2, Hc1, Hd2, Hd1, Hm2, Hm1,
    Ht2, Ht1, Hs2, Hs1, total_len_app, concat_app, <- !app_assoc.
  repeat split; try lia.
  exists (l1 ++ l2). rewrite Ho2, Ho1, <- app_assoc, !length_app, Hl1, Hl2.
  repeat split. apply Forall_app; split; [done|]. by rewrite <- Ht1.
Qed.

Lemma for_chunks_spec w chunks stop : forall s f old,
  fobj s = Some f -> fo_closed f = false -> fs s !! fo_path f = Some old ->
  (for_chunks (chunk_step w) chunks stop s).1 = stop_outcome stop
  /\ streamed f old s (for_chunks (chunk_step w) chunks stop s).2
              (List.filter nonempty chunks).
Proof.
  induction chunks as [|c rest IH]; intros s f old Hf Hc Hfs.
  - cbn. split; [by destruct stop|]. destruct stop; by apply streamed_refl.
  - destruct c as [|b c].
    + cbn [for_chunks List.filter nonempty]. unfold bind. cbn. by apply IH.
    + destruct (chunk_step_nonempty w b c s f old Hf Hc Hfs)
        as (s1 & Hstep & Hs1).
      cbn [for_chunks List.filter nonempty]. unfold bind. rewrite Hstep.
      pose proof Hs1 as (Hf1 & Hfs1 & _).
      edestruct (IH s1) as [Ho Hrest]; [exact Hf1|reflexivity| |].
      { rewrite Hfs1. apply lookup_insert_eq. }
      split; [exact Ho|].
      change ((b :: c) :: List.filter nonempty rest)
        with ([b :: c] ++ List.filter nonempty rest).
      eapply streamed_trans; [exact Hs1|]. exact Hrest.
Qed.

Lemma for_chunks_app step pre post stop s :
  for_chunks step (pre ++ post) stop s =
  match for_chunks step pre None s with
  | (Val _, s1) => for_chunks step post stop s1
  | r => r
  end.
Proof.
  revert s. induction pre as [|c pre IH]; intros s; [reflexivity|].
  cbn. unfold bind. destruct (step c s) as [[| |e] s1]; try reflexivity.
  apply IH.
Qed.

(** ** From the probe to the loop *)

Lemma probed_size_nonneg fs0 dest : 0 <= probed_size fs0 dest.
Proof. unfold probed_size. destruct (fs0 !! dest); lia. Qed.

Section EntryFacts.

Variables (w : World) (fs0 : gmap string bytes) (url dest : string).
Variables (chunk_size : Z) (response : Response) (declared : Z).

Let s2 :=
  sized response declared (dispatched response (after_probe fs0 dest)).

Lemma negotiated_fs : fs s2 = fs0.
Proof.
  unfold s2, sized, dispatched.
  destruct (status_code response =? 206); [reflexivity|].
  destruct (status_code response =? 200); [|reflexivity].
  destruct (0 <? current_size _); reflexivity.
Qed.

Lemma negotiated_fobj : fobj s2 = None.
Proof.
  unfold s2, sized, dispatched.
  destruct (status_code response =? 206); [reflexivity|].
  destruct (status_code response =? 200); [|reflexivity].
  destruct (0 <? current_size _); reflexivity.
Qed.

Lemma negotiated_mode_eq : mode s2 = negotiated_mode fs0 dest response.
Proof.
  unfold s2, sized, dispatched, negotiated_mode.
  destruct (status_code response =? 206) eqn:E206.
  { assert ((status_code response =? 200) = false) as -> by lia.
    reflexivity. }
  destruct (status_code response =? 200); [|reflexivity].
  cbn. destruct (0 <? probed_size fs0 dest); reflexivity.
Qed.

Lemma negotiated_offset : current_size s2 = resume_offset fs0 dest response.
Proof.
  unfold s2, sized, dispatched, resume_offset.
  pose proof (probed_size_nonneg fs0 dest).
  destruct (status_code response =? 206) eqn:E206.
  { assert ((status_code response =? 200) = false) as -> by lia.
    reflexivity. }
  destruct (status_code response =? 200); [|reflexivity].
  cbn. destruct (0 <? probed_size fs0 dest) eqn:E; cbn; lia.
Qed.

Lemma negotiated_total :
  total_size s2 = expected_total fs0 dest response declared.
Proof.
  unfold s2, sized, dispatched, expected_total.
  destruct (status_code response =? 206) eqn:E206; [reflexivity|].
  destruct (status_code response =? 200); [|reflexivity].
  destruct (0 <? current_size _); reflexivity.
Qed.

Lemma negotiated_quiet : Forall quiet (stdout s2).
Proof.
  assert (Forall quiet (probe_msgs fs0 dest)) as Hp.
  { unfold probe_msgs. apply Forall_app. split.
    - destruct (fs0 !! dest); repeat constructor.
    - destruct (0 <? _); repeat constructor. }
  unfold s2, sized, dispatched. cbn.
  destruct (status_code response =? 206).
  { cbn. rewrite !Forall_app. repeat split; auto; repeat constructor. }
  destruct (status_code response =? 200).
  - destruct (0 <? probed_size fs0 dest); cbn;
      rewrite !Forall_app; repeat split; auto; repeat constructor.
  - cbn. rewrite !Forall_app. repeat split; auto; repeat constructor.
Qed.

End EntryFacts.

Lemma exit_stream_inv w fs0 url dest response declared :
  exit_of w fs0 url dest = ExitStream response declared ->
  probe_fault w fs0 dest = None
  /\ w_get w url (sent_headers fs0 dest) = inr response
  /\ (status_code response =? 416) = false
  /\ status_raises response = false
  /\ declared_length response = Some declared
  /\ w_open_fault w = None
  /\ mb_overflows (expected_total fs0 dest response declared) = false.
Proof.
  unfold exit_of.
  destruct (probe_fault w fs0 dest); [discriminate|].
  destruct (w_get w url (sent_headers fs0 dest)) as [e|r]; [discriminate|].
  destruct (status_code r =? 416) eqn:E416; [discriminate|].
  destruct (status_raises r) eqn:Er; [discriminate|].
  destruct (declared_length r) eqn:Ed; [|discriminate].
  destruct (mb_overflows (expected_total fs0 dest r z)) eqn:Et;
    [discriminate|].
  destruct (w_open_fault w); [discriminate|].
  intros [= <- <-]. by rewrite E416, Er, Ed, Et.
Qed.

Lemma exit_stream_intro w fs0 url dest response declared :
  probe_fault w fs0 dest = None ->
  w_get w url (sent_headers fs0 dest) = inr response ->
  (status_code response =? 416) = false ->
  status_raises response = false ->
  declared_length response = Some declared ->
  mb_overflows (expected_total fs0 dest response declared) = false ->
  w_open_fault w = None ->
  exit_of w fs0 url dest = ExitStream response declared.
Proof.
  unfold exit_of. by intros -> -> -> -> -> -> ->.
Qed.

Lemma handled_fields e s :
  fs (handled e s) = fs s /\ fobj (handled e s) = fobj s
  /\ current_size (handled e s) = current_size s
  /\ mode (handled e s) = mode s
  /\ total_size (handled e s) = total_size s
  /\ downloaded_in_session (handled e s) = downloaded_in_session s.
Proof. destruct e; repeat split; reflexivity. Qed.

Lemma reported_status_handled e s :
  reported_status (stdout (handled e s)) = Some (status_of_exn e).
Proof.
  unfold reported_status.
  destruct e; cbn; rewrite ?rev_app_distr; reflexivity.
Qed.

Lemma reported_status_complete s :
  reported_status (stdout (emit MsgComplete s)) = Some Completed.
Proof. unfold reported_status. cbn. by rewrite rev_app_distr. Qed.

Lemma entry_fobj w path s :
  fobj (started w (opened path s))
  = Some (mkFileObj path (mode s) false []).
Proof. reflexivity. Qed.

Lemma entry_fs w path s :
  fs (started w (opened path s))
  = <[path := match mode s with
              | wb => []
              | ab => default [] (fs s !! path)
              end]> (fs s).
Proof. reflexivity. Qed.

Lemma loop_run_spec w fs0 dest chunk_size response declared :
  let r := loop_run w fs0 dest chunk_size response declared in
  r.1 = stop_outcome (iter_content response chunk_size).2
  /\ streamed (mkFileObj dest (negotiated_mode fs0 dest response) false [])
       (kept_content fs0 dest response)
       (loop_entry w fs0 dest response declared) r.2
       (List.filter nonempty (iter_content response chunk_size).1).
Proof.
  intros r. unfold r, loop_run.
  apply for_chunks_spec.
  - unfold loop_entry. by rewrite entry_fobj, negotiated_mode_eq.
  - reflexivity.
  - unfold loop_entry, kept_content.
    rewrite entry_fs, lookup_insert_eq.
    by rewrite negotiated_mode_eq, negotiated_fs.
Qed.

(** ** From the loop to the exit *)

Lemma close_fields s f :
  fobj s = Some f ->
  fobj (close_ s)
  = Some (mkFileObj (fo_path f) (fo_mode f) true (fo_writes f))
  /\ fs (close_ s) = fs s
  /\ stdout (close_ s) = stdout s
  /\ current_size (close_ s) = current_size s
  /\ mode (close_ s) = mode s
  /\ total_size (close_ s) = total_size s
  /\ downloaded_in_session (close_ s) = downloaded_in_session s.
Proof. intros Hf. unfold close_. rewrite Hf. repeat split; reflexivity. Qed.

Lemma entry_frame w path s :
  current_size (started w (opened path s)) = current_size s
  /\ mode (started w (opened path s)) = mode s
  /\ total_size (started w (opened path s)) = total_size s
  /\ stdout (started w (opened path s)) = stdout s
  /\ downloaded_in_session (started w (opened path s)) = 0.
Proof. repeat split; reflexivity. Qed.

Lemma run_stream_state w fs0 url dest_path chunk_size response declared :
  let dest := resolve_dest url dest_path in
  exit_of w fs0 url dest = ExitStream response declared ->
  let r := download_file_resumable w url dest_path chunk_size
             (init_state fs0) in
  r.1 = ReturnsNone
  /\ r.2 = match (iter_content response chunk_size).2 with
           | None =>
             emit MsgComplete
               (stream_end w fs0 dest chunk_size response declared)
           | Some e =>
             handled e (stream_end w fs0 dest chunk_size response declared)
           end.
Proof.
  intros dest Hx r. unfold r.
  rewrite download_file_resumable_exits. fold dest. rewrite Hx.
  cbn [run_of_exit]. cbn zeta.
  destruct (loop_run_spec w fs0 dest chunk_size response declared)
    as [Ho _].
  cbn zeta in Ho. rewrite Ho. unfold stream_end.
  destruct (iter_content response chunk_size).2; split; reflexivity.
Qed.

Lemma stream_end_spec w fs0 dest chunk_size response declared :
  let s := stream_end w fs0 dest chunk_size response declared in
  let written :=
    List.filter nonempty (iter_content response chunk_size).1 in
  fobj s = Some (mkFileObj dest (negotiated_mode fs0 dest response) true
                           written)
  /\ fs s = <[dest := kept_content fs0 dest response ++ concat written]> fs0
  /\ current_size s = resume_offset fs0 dest response + total_len written
  /\ downloaded_in_session s = total_len written
  /\ mode s = negotiated_mode fs0 dest response
  /\ total_size s = expected_total fs0 dest response declared
  /\ exists lines,
       stdout s
       = stdout (sized response declared
                   (dispatched response (after_probe fs0 dest))) ++ lines
       /\ length lines = length written
       /\ Forall (progress_for
                    (expected_total fs0 dest response declared)) lines.
Proof.
  intros s written.
  destruct (loop_run_spec w fs0 dest chunk_size response declared)
    as [_ (Hf & Hfs & Hc & Hd & Hm & Ht & _ & lines & Ho & Hl & Hp)].
  cbn zeta in *. cbn [fo_path fo_mode fo_writes app] in Hf, Hfs.
  fold written in Hf, Hfs, Hc, Hd, Hl.
  destruct (close_fields _ _ Hf) as (Cf & Cfs & Co & Cc & Cm & Ct & Cd).
  unfold s, stream_end.
  rewrite Cf, Cfs, Co, Cc, Cm, Ct, Cd, Hfs, Hc, Hd, Hm, Ht.
  unfold loop_entry in *.
  destruct (entry_frame w dest
              (sized response declared
                 (dispatched response (after_probe fs0 dest))))
    as (Ec & Em & Et & Eo & Ed).
  rewrite Et, negotiated_total in Hp.
  rewrite entry_fs, insert_insert_eq, negotiated_fs, Ec, Em, Et, Ed,
    negotiated_offset, negotiated_mode_eq, negotiated_total.
  repeat split; try lia.
  exists lines. by rewrite Ho, Eo.
Qed.

(** ** Every exit at once *)

Lemma emit_fields m s :
  fs (emit m s) = fs s /\ fobj (emit m s) = fobj s.
Proof. split; reflexivity. Qed.

Lemma dispatched_fields response s :
  fs (dispatched response s) = fs s
  /\ fobj (dispatched response s) = fobj s.
Proof.
  unfold dispatched.
  destruct (status_code response =? 206); [by split|].
  destruct (status_code response =? 200); [|by split].
  destruct (0 <? current_size s); by split.
Qed.

Lemma totalled_fields response declared s :
  fs (totalled response declared s) = fs s
  /\ fobj (totalled response declared s) = fobj s.
Proof. split; reflexivity. Qed.

Lemma exit_probe_iff w fs0 url dest e :
  exit_of w fs0 url dest = ExitProbe e <-> probe_fault w fs0 dest = Some e.
Proof.
  unfold exit_of. destruct (probe_fault w fs0 dest) as [e'|].
  - split; intros [= ->]; reflexivity.
  - split; [|discriminate].
    destruct (w_get w url (sent_headers fs0 dest)) as [?|r];
      [discriminate|].
    destruct (status_code r =? 416); [discriminate|].
    destruct (status_raises r); [discriminate|].
    destruct (declared_length r) as [d|]; [|discriminate].
    destruct (mb_overflows (expected_total fs0 dest r d)); [discriminate|].
    destruct (w_open_fault w); discriminate.
Qed.

Lemma run_completion w fs0 url dest_path chunk_size :
  (download_file_resumable w url dest_path chunk_size (init_state fs0)).1
  = match probe_fault w fs0 (resolve_dest url dest_path) with
    | Some e => Propagates e
    | None => ReturnsNone
    end.
Proof.
  rewrite download_file_resumable_exits.
  set (dest := resolve_dest url dest_path).
  destruct (exit_of w fs0 url dest) as [e| | | | | | |] eqn:Hx.
  - apply exit_probe_iff in Hx. by rewrite Hx.
  - destruct (probe_fault w fs0 dest) as [e'|] eqn:Hp; [|reflexivity].
    apply (exit_probe_iff w fs0 url) in Hp. congruence.
  - destruct (probe_fault w fs0 dest) as [e'|] eqn:Hp; [|reflexivity].
    apply (exit_probe_iff w fs0 url) in Hp. congruence.
  - destruct (probe_fault w fs0 dest) as [e'|] eqn:Hp; [|reflexivity].
    apply (exit_probe_iff w fs0 url) in Hp. congruence.
  - destruct (probe_fault w fs0 dest) as [e'|] eqn:Hp; [|reflexivity].
    apply (exit_probe_iff w fs0 url) in Hp. congruence.
  - destruct (probe_fault w fs0 dest) as [e'|] eqn:Hp; [|reflexivity].
    apply (exit_probe_iff w fs0 url) in Hp. congruence.
  - destruct (probe_fault w fs0 dest) as [e'|] eqn:Hp; [|reflexivity].
    apply (exit_probe_iff w fs0 url) in Hp. congruence.
  - destruct (probe_fault w fs0 dest) as [e'|] eqn:Hp; [|reflexivity].
    apply (exit_probe_iff w fs0 url) in Hp. congruence.
Qed.

Lemma run_status w fs0 url dest_path chunk_size :
  reported_status
    (stdout
       (download_file_resumable w url dest_path chunk_size
          (init_state fs0)).2)
  = exit_status chunk_size (exit_of w fs0 url (resolve_dest url dest_path)).
Proof.
  set (dest := resolve_dest url dest_path).
  destruct (exit_of w fs0 url dest) as [e|e|r|r|r|r d|r d e|r d] eqn:Hx.
  8: { destruct (run_stream_state w fs0 url dest_path chunk_size r d Hx)
         as [_ Hs]. cbn zeta in Hs. rewrite Hs. cbn [exit_status].
       destruct (iter_content r chunk_size).2.
       - apply reported_status_handled.
       - apply reported_status_complete. }
  all: rewrite download_file_resumable_exits; fold dest; rewrite Hx;
    cbn [run_of_exit exit_status snd].
  - reflexivity.
  - apply reported_status_handled.
  - unfold reported_status. cbn. by rewrite rev_app_distr.
  - apply reported_status_handled.
  - apply reported_status_handled.
  - apply (reported_status_handled total_overflow).
  - apply reported_status_handled.
Qed.

Lemma quiet_emit m s :
  quiet m -> Forall quiet (stdout s) -> Forall quiet (stdout (emit m s)).
Proof. intros Hm Hs. cbn. apply Forall_app. split; [done|by constructor]. Qed.

Lemma quiet_handled e s :
  Forall quiet (stdout s) -> Forall quiet (stdout (handled e s)).
Proof.
  intros Hs. destruct e; cbn; rewrite ?Forall_app;
    repeat split; try done; by repeat constructor.
Qed.

Lemma quiet_after_probe fs0 dest : Forall quiet (stdout (after_probe fs0 dest)).
Proof.
  cbn. unfold probe_msgs. apply Forall_app. split.
  - destruct (fs0 !! dest); by repeat constructor.
  - destruct (0 <? _); by repeat constructor.
Qed.

Lemma quiet_dispatched response s :
  Forall quiet (stdout s) -> Forall quiet (stdout (dispatched response s)).
Proof.
  intros Hs. unfold dispatched.
  destruct (status_code response =? 206); [by apply quiet_emit|].
  destruct (status_code response =? 200); [|by apply quiet_emit].
  destruct (0 <? current_size s); [|by apply quiet_emit].
  by apply (quiet_emit MsgRestart s).
Qed.

Lemma run_stdout_shape w fs0 url dest_path chunk_size :
  let r := download_file_resumable w url dest_path chunk_size
             (init_state fs0) in
  Forall (fun m => quiet m \/ progress_for (total_size r.2) m) (stdout r.2).
Proof.
  intros r. unfold r.
  set (dest := resolve_dest url dest_path).
  assert (forall s : State, Forall quiet (stdout s) ->
            Forall (fun m => quiet m \/ progress_for (total_size s) m)
                   (stdout s)) as Hq.
  { intros s Hs. eapply Forall_impl; [exact Hs|]. by left. }
  destruct (exit_of w fs0 url dest)
    as [e|e|r0|r0|r0|r0 d|r0 d e|r0 d] eqn:Hx.
  8: { destruct (run_stream_state w fs0 url dest_path chunk_size r0 d Hx)
         as [_ Hs]. cbn zeta in Hs. rewrite Hs. fold dest.
       destruct (stream_end_spec w fs0 dest chunk_size r0 d)
         as (_ & _ & _ & _ & _ & Ht & lines & Ho & _ & Hp).
       cbn zeta in Ht, Ho, Hp.
       assert (Forall (fun m => quiet m
                 \/ progress_for (expected_total fs0 dest r0 d) m)
                 (stdout (stream_end w fs0 dest chunk_size r0 d))) as Hend.
       { rewrite Ho. apply Forall_app. split.
         - eapply Forall_impl; [apply negotiated_quiet|]. by left.
         - eapply Forall_impl; [exact Hp|]. by right. }
       destruct (iter_content r0 chunk_size).2 as [e|].
       - destruct (handled_fields e (stream_end w fs0 dest chunk_size r0 d))
           as (_ & _ & _ & _ & -> & _). rewrite Ht.
         destruct e; cbn; rewrite ?Forall_app; repeat split; try done;
           repeat constructor; by left.
       - change (total_size (emit MsgComplete
                   (stream_end w fs0 dest chunk_size r0 d)))
           with (total_size (stream_end w fs0 dest chunk_size r0 d)).
         rewrite Ht. cbn. apply Forall_app. split; [done|].
         repeat constructor. }
  all: rewrite download_file_resumable_exits; fold dest; rewrite Hx;
    cbn [run_of_exit snd]; apply Hq.
  - constructor.
  - apply quiet_handled, quiet_after_probe.
  - by apply quiet_emit; [|apply quiet_after_probe].
  - apply quiet_handled, quiet_dispatched, quiet_after_probe.
  - apply quiet_handled, quiet_dispatched, quiet_after_probe.
  - apply quiet_handled.
    change (stdout (totalled r0 d (dispatched r0 (after_probe fs0 dest))))
      with (stdout (dispatched r0 (after_probe fs0 dest))).
    apply quiet_dispatched, quiet_after_probe.
  - apply quiet_handled, negotiated_quiet.
Qed.

(** ** The generator of a whole body *)

Section Blocks.

Variable c : nat.
Hypothesis c_pos : (0 < c)%nat.

Lemma blocks_fuel_concat fuel : forall body,
  (length body <= fuel)%nat -> concat (blocks_fuel fuel c body) = body.
Proof.
  induction fuel as [|fuel IH]; intros body Hlen.
  - destruct body; [reflexivity|cbn in Hlen; lia].
  - destruct body as [|b body]; [reflexivity|].
    cbn [blocks_fuel concat]. rewrite IH.
    + apply take_drop.
    + rewrite length_drop. cbn [length] in *. lia.
Qed.

Lemma blocks_fuel_nonempty fuel : forall body,
  Forall (fun chunk => nonempty chunk = true) (blocks_fuel fuel c body).
Proof.
  induction fuel as [|fuel IH]; intros body; [by destruct body|].
  destruct body as [|b body]; [constructor|].
  cbn [blocks_fuel]. constructor; [|apply IH].
  destruct c; [lia|reflexivity].
Qed.

Lemma blocks_fuel_lookup fuel : forall body i chunk,
  (length body <= fuel)%nat ->
  blocks_fuel fuel c body !! i = Some chunk ->
  length chunk = (c `min` (length body - i * c))%nat.
Proof.
  induction fuel as [|fuel IH]; intros body i chunk Hlen Hi.
  - by destruct body.
  - destruct body as [|b body]; [done|].
    cbn [blocks_fuel] in Hi. destruct i as [|i].
    + injection Hi as <-. rewrite length_take. lia.
    + cbn [lookup list_lookup] in Hi. apply IH in Hi.
      * rewrite Hi, length_drop. lia.
      * rewrite length_drop. cbn [length] in *. lia.
Qed.

Lemma blocks_fuel_count fuel : forall body,
  (length body <= fuel)%nat ->
  let n := length (blocks_fuel fuel c body) in
  (n * c < length body + c /\ length body <= n * c)%nat.
Proof.
  induction fuel as [|fuel IH]; intros body Hlen n; subst n.
  - destruct body; cbn in *; lia.
  - destruct body as [|b body]; [cbn; lia|].
    cbn [blocks_fuel length].
    specialize (IH (drop c (b :: body))).
    rewrite length_drop in IH. cbn [length] in *.
    cbn zeta in IH.
    destruct (length (blocks_fuel fuel c (drop c (b :: body)))) as [|n'];
      nia.
Qed.

End Blocks.

Lemma filter_all_true {A} (f : A -> bool) (l : list A) :
  Forall (fun x => f x = true) l -> List.filter f l = l.
Proof.
  induction 1 as [|x l Hx _ IH]; [reflexivity|].
  cbn. by rewrite Hx, IH.
Qed.

Lemma concat_filter_nonempty (l : list bytes) :
  concat (List.filter nonempty l) = concat l.
Proof.
  induction l as [|c l IH]; [reflexivity|].
  destruct c; cbn; [exact IH|]. by rewrite IH.
Qed.

Lemma total_len_filter_nonempty (l : list bytes) :
  total_len (List.filter nonempty l) = total_len l.
Proof. unfold total_len. by rewrite concat_filter_nonempty. Qed.

Section BlocksZ.

Variables (c : Z) (body : bytes).
Hypothesis c_pos : 0 < c.

Lemma blocks_concat : concat (blocks c body) = body.
Proof. apply blocks_fuel_concat; lia. Qed.

Lemma blocks_all_written : List.filter nonempty (blocks c body) = blocks c body.
Proof. apply filter_all_true, blocks_fuel_nonempty. lia. Qed.

Lemma blocks_count :
  Z.of_nat (length (blocks c body))
  = (Z.of_nat (length body) + c - 1) / c.
Proof.
  pose proof (blocks_fuel_count (Z.to_nat c) ltac:(lia) (length body) body
                ltac:(lia)) as [Hlo Hhi].
  fold (blocks c body) in Hlo, Hhi.
  set (n := length (blocks c body)) in *.
  apply (Z.div_unique _ _ _
           (Z.of_nat (length body) + c - 1 - c * Z.of_nat n)); nia.
Qed.

Lemma blocks_full i chunk :
  blocks c body !! i = Some chunk ->
  (S i < length (blocks c body))%nat ->
  Z.of_nat (length chunk) = c.
Proof.
  intros Hi Hlt.
  pose proof (blocks_fuel_count (Z.to_nat c) ltac:(lia) (length body) body
                ltac:(lia)) as [Hlo Hhi].
  fold (blocks c body) in Hlo, Hhi.
  apply (blocks_fuel_lookup (Z.to_nat c)) in Hi; [|lia..].
  set (n := length (blocks c body)) in *. nia.
Qed.

Lemma blocks_last chunk :
  last (blocks c body) = Some chunk ->
  Z.of_nat (length chunk)
  = if Z.of_nat (length body) mod c =? 0 then c
    else Z.of_nat (length body) mod c.
Proof.
  rewrite last_lookup. intros Hi.
  pose proof (blocks_fuel_count (Z.to_nat c) ltac:(lia) (length body) body
                ltac:(lia)) as [Hlo Hhi].
  fold (blocks c body) in Hlo, Hhi.
  pose proof (lookup_lt_Some _ _ _ Hi) as Hn.
  apply (blocks_fuel_lookup (Z.to_nat c)) in Hi; [|lia..].
  set (n := length (blocks c body)) in *.
  set (L := length body) in *.
  assert (Z.of_nat (length chunk) = Z.of_nat L - (Z.of_nat n - 1) * c)
    as -> by nia.
  destruct (Z.of_nat L mod c =? 0) eqn:Hm.
  - apply Z.eqb_eq in Hm. apply Z.mod_divide in Hm; [|lia].
    destruct Hm as [q Hq].
    assert (q = Z.of_nat n) as -> by nia. lia.
  - apply Z.eqb_neq in Hm.
    apply (Z.mod_unique_pos _ _ (Z.of_nat n - 1)); [|lia].
    split; [nia|].
    assert (Z.of_nat L <> Z.of_nat n * c) as Hne.
    { intros Heq. apply Hm. rewrite Heq. apply Z.mod_mul. lia. }
    nia.
Qed.

End BlocksZ.

(** ** What the whole invocation does *)

Lemma exit_stream_ok w fs0 url dest response declared :
  probe_fault w fs0 dest = None ->
  w_get w url (sent_headers fs0 dest) = inr response ->
  status_code response = 200 \/ status_code response = 206 ->
  declared_length response = Some declared ->
  mb_overflows (expected_total fs0 dest response declared) = false ->
  w_open_fault w = None ->
  exit_of w fs0 url dest = ExitStream response declared.
Proof.
  intros Hp Hg Hs Hd Ht Ho. apply exit_stream_intro; try done.
  - destruct Hs as [-> | ->]; reflexivity.
  - unfold status_raises. destruct Hs as [-> | ->]; reflexivity.
Qed.

Lemma invoke_exits w fs0 url dest_path chunk_size :
  invoke w url dest_path chunk_size fs0
  = run_of_exit w fs0 (resolve_dest url dest_path) chunk_size
      (exit_of w fs0 url (resolve_dest url dest_path)).
Proof. apply download_file_resumable_exits. Qed.

(** The state of an invocation that reached the loop. *)
Lemma invoke_stream w fs0 url dest_path chunk_size response declared :
  exit_of w fs0 url (resolve_dest url dest_path)
  = ExitStream response declared ->
  let dest := resolve_dest url dest_path in
  let s := (invoke w url dest_path chunk_size fs0).2 in
  let written :=
    List.filter nonempty (iter_content response chunk_size).1 in
  fobj s = Some (mkFileObj dest (negotiated_mode fs0 dest response) true
                           written)
  /\ fs s = <[dest := kept_content fs0 dest response ++ concat written]> fs0
  /\ current_size s = resume_offset fs0 dest response + total_len written
  /\ downloaded_in_session s = total_len written
  /\ mode s = negotiated_mode fs0 dest response
  /\ total_size s = expected_total fs0 dest response declared.
Proof.
  intros Hx dest s written. unfold s, invoke.
  destruct (run_stream_state w fs0 url dest_path chunk_size response
              declared Hx) as [_ Hs].
  cbn zeta in Hs. rewrite Hs. fold dest.
  destruct (stream_end_spec w fs0 dest chunk_size response declared)
    as (Hf & Hfs & Hc & Hd & Hm & Ht & _).
  cbn zeta in *. fold written in Hf, Hfs, Hc, Hd.
  destruct (iter_content response chunk_size).2 as [e|].
  - destruct (handled_fields e
                (stream_end w fs0 dest chunk_size response declared))
      as (-> & -> & -> & -> & -> & ->). done.
  - done.
Qed.

Lemma exit_status_some w fs0 url dest chunk_size :
  probe_fault w fs0 dest = None ->
  is_Some (exit_status chunk_size (exit_of w fs0 url dest)).
Proof.
  intros Hp.
  destruct (exit_of w fs0 url dest) as [e|e|r|r|r|r d|r d e|r d] eqn:Hx;
    cbn; eauto.
  - apply exit_probe_iff in Hx. congruence.
  - destruct (iter_content r chunk_size).2; eauto.
Qed.

(** The statuses [raise_for_status] does reject: the invocation fails
    with the status as its reason and touches no file. *)
Lemma error_status_fails w fs0 url dest_path chunk_size response :
  probe_fault w fs0 (resolve_dest url dest_path) = None ->
  w_get w url (sent_headers fs0 (resolve_dest url dest_path))
  = inr response ->
  400 <= status_code response < 600 ->
  status_code response <> 416 ->
  (invoke w url dest_path chunk_size fs0).1 = ReturnsNone
  /\ reported_status (stdout (invoke w url dest_path chunk_size fs0).2)
     = Some (Failed (HTTPError (status_code response)))
  /\ fobj (invoke w url dest_path chunk_size fs0).2 = None
  /\ fs (invoke w url dest_path chunk_size fs0).2 = fs0.
Proof.
  intros Hp Hg Hs H416. rewrite invoke_exits.
  unfold exit_of. rewrite Hp, Hg.
  assert ((status_code response =? 416) = false) as -> by lia.
  assert (status_raises response = true) as ->.
  { unfold status_raises.
    repeat (apply andb_true_intro; split); try apply negb_true_iff; lia. }
  cbn [run_of_exit fst snd].
  repeat split.
  - apply reported_status_handled.
  - rewrite (proj1 (proj2 (handled_fields _ _))).
    apply dispatched_fields.
  - rewrite (proj1 (handled_fields _ _)). apply dispatched_fields.
Qed.

(** ** The claims *)

(** C1 as the code has it: whenever the probe succeeds the function
    returns [None], whatever happened; what happened is only announced on
    standard output, by the last lines printed: completion when the body
    was exhausted or the server answered 416, an interruption when
    [KeyboardInterrupt] was raised after the probe, a failure with its
    reason when any other exception was. *)
Theorem C1_outcome_printed_not_returned w fs0 url dest_path chunk_size :
  probe_fault w fs0 (resolve_dest url dest_path) = None ->
  (invoke w url dest_path chunk_size fs0).1 = ReturnsNone
  /\ reported_status (stdout (invoke w url dest_path chunk_size fs0).2)
     = exit_status chunk_size
         (exit_of w fs0 url (resolve_dest url dest_path))
  /\ is_Some (exit_status chunk_size
                (exit_of w fs0 url (resolve_dest url dest_path))).
Proof.
  intros Hp. unfold invoke. rewrite run_completion, run_status, Hp.
  repeat split. by apply exit_status_some.
Qed.

Lemma C1_outcome_printed_not_returned_witness :
  (invoke (plain_server (zeros 3)) example_url None 2 ∅).1 = ReturnsNone
  /\ reported_status
       (stdout (invoke (plain_server (zeros 3)) example_url None 2 ∅).2)
     = exit_status 2
         (exit_of (plain_server (zeros 3)) ∅ example_url
            (resolve_dest example_url None))
  /\ is_Some (exit_status 2
                (exit_of (plain_server (zeros 3)) ∅ example_url
                   (resolve_dest example_url None))).
Proof.
  apply (C1_outcome_printed_not_returned (plain_server (zeros 3)) ∅
           example_url None 2).
  vm_compute. reflexivity.
Defined.

(** C1, counterexample: a download that completes and one that fails with
    status 404 return the same value, so no reading of the returned value
    tells the two outcomes apart. *)
Lemma C1_returned_value_is_silent :
  (invoke (plain_server (zeros 3)) example_url None 2 ∅).1
  = (invoke (fixed_server (whole_response 404 ∅ [])) example_url None 2 ∅).1
  /\ reported_status
       (stdout (invoke (plain_server (zeros 3)) example_url None 2 ∅).2)
     = Some Completed
  /\ reported_status
       (stdout (invoke (fixed_server (whole_response 404 ∅ []))
                       example_url None 2 ∅).2)
     = Some (Failed (HTTPError 404))
  /\ ~ exists decode : Completion -> TerminalStatus,
         decode (invoke (plain_server (zeros 3)) example_url None 2 ∅).1
         = Completed
         /\ decode (invoke (fixed_server (whole_response 404 ∅ []))
                           example_url None 2 ∅).1
            = Failed (HTTPError 404).
Proof.
  vm_compute. repeat split. intros (decode & H1 & H2). congruence.
Qed.

(** C2, at the failing input: the destination holds two bytes and the
    server answers the range request with status 203 and the whole
    resource, three bytes.  The status is announced as unexpected, and
    then the body is appended to the two bytes and the download is
    announced as complete. *)
Theorem C2_status_203_is_downloaded :
  let r := invoke (fixed_server (whole_response 203 ∅ (zeros 3)))
                  example_url None 2 {[ "f.bin" := zeros 2 ]} in
  r.1 = ReturnsNone
  /\ stdout r.2 !! 2%nat = Some (MsgUnexpectedStatus 203)
  /\ reported_status (stdout r.2) = Some Completed
  /\ (exists f, fobj r.2 = Some f /\ fo_writes f = [zeros 2; zeros 1])
  /\ fs r.2 !! "f.bin" = Some (zeros 5).
Proof. vm_compute. repeat split. eexists. split; reflexivity. Qed.





(** C5: when the server answers 416 the invocation returns normally and
    announces completion; no file object is ever opened, so nothing is
    written, and the file system is exactly the one the probe saw. *)
Theorem C5_range_not_satisfiable w fs0 url dest_path chunk_size response :
  probe_fault w fs0 (resolve_dest url dest_path) = None ->
  w_get w url (sent_headers fs0 (resolve_dest url dest_path))
  = inr response ->
  status_code response = 416 ->
  (invoke w url dest_path chunk_size fs0).1 = ReturnsNone
  /\ reported_status (stdout (invoke w url dest_path chunk_size fs0).2)
     = Some Completed
  /\ fobj (invoke w url dest_path chunk_size fs0).2 = None
  /\ fs (invoke w url dest_path chunk_size fs0).2 = fs0.
Proof.
  intros Hp Hg Hs. rewrite invoke_exits.
  unfold exit_of. rewrite Hp, Hg, Hs. cbn.
  repeat split. unfold reported_status. by rewrite rev_app_distr.
Qed.

Lemma C5_range_not_satisfiable_witness :
  (invoke (range_server (zeros 5) 5) example_url None 2
          {[ "f.bin" := zeros 5 ]}).1 = ReturnsNone
  /\ reported_status
       (stdout (invoke (range_server (zeros 5) 5) example_url None 2
                       {[ "f.bin" := zeros 5 ]}).2) = Some Completed
  /\ fobj (invoke (range_server (zeros 5) 5) example_url None 2
                  {[ "f.bin" := zeros 5 ]}).2 = None
  /\ fs (invoke (range_server (zeros 5) 5) example_url None 2
                {[ "f.bin" := zeros 5 ]}).2 = {[ "f.bin" := zeros 5 ]}.
Proof.
  apply (C5_range_not_satisfiable (range_server (zeros 5) 5)
           {[ "f.bin" := zeros 5 ]} example_url None 2
           (whole_response 416 ∅ []));
    vm_compute; reflexivity.
Defined.

(** C6 as the code has it: every progress line displays a percentage,
    and no other line does.  The percentage is the byte counter over the
    total size, times 100, when the total size is strictly positive; it is
    the constant 0 (printed as 0.0%) when it is not, as when the server
    sent no Content-Length.  The size next to it is the counter in MB. *)
Theorem C6_percentage_always_displayed w fs0 url dest_path chunk_size :
  Forall
    (fun m =>
       match m with
       | MsgProgress percent size_mb _ =>
         percent_shown (render m) = Some percent
         /\ exists size,
              size_mb = (inject_Z size / mib)%Q
              /\ percent
                 = if 0 <? total_size (invoke w url dest_path chunk_size
                                              fs0).2
                   then ((inject_Z size
                          / inject_Z (total_size
                                        (invoke w url dest_path chunk_size
                                                fs0).2))
                         * inject_Z 100)%Q
                   else 0%Q
       | _ => percent_shown (render m) = None
       end)
    (stdout (invoke w url dest_path chunk_size fs0).2).
Proof.
  eapply Forall_impl;
    [apply (run_stdout_shape w fs0 url dest_path chunk_size)|].
  cbn beta. intros m [Hq | (size & speed & ->)].
  - destruct m; try reflexivity. destruct Hq.
  - split; [reflexivity|]. exists size. split; reflexivity.
Qed.

(** C6, counterexample: the server sends three bytes and no
    Content-Length.  The total size is recorded as 0, and both progress
    lines display a percentage, 0. *)
Lemma C6_percentage_shown_without_length :
  let s := (invoke (fixed_server (whole_response 200 ∅ (zeros 3)))
                   example_url None 2 ∅).2 in
  total_size s = 0
  /\ (percent_shown ∘ render) <$> stdout s
     = [None; None; Some 0%Q; Some 0%Q; None].
Proof. vm_compute. split; reflexivity. Qed.

(** C7 as the code has it: the function hands [chunk_size] to the
    generator and calls [f.write] once for every non-empty chunk the
    generator yields, in order and with that chunk as it came; it neither
    splits nor joins chunks.  So the number and the sizes of the writes
    are those of the chunks received: when these are the consecutive
    pieces of C > 0 bytes of a body of S > 0 bytes, there are ceil(S/C)
    writes, each but the last of C bytes, the last of S mod C bytes, or C
    when C divides S. *)
Theorem C7_writes_are_the_chunks_received w fs0 url dest_path chunk_size
  response declared :
  exit_of w fs0 url (resolve_dest url dest_path)
  = ExitStream response declared ->
  exists f,
    fobj (invoke w url dest_path chunk_size fs0).2 = Some f
    /\ fo_writes f
       = List.filter nonempty (iter_content response chunk_size).1
    /\ concat (fo_writes f) = concat (iter_content response chunk_size).1
    /\ (forall body,
          (iter_content response chunk_size).1 = blocks chunk_size body ->
          0 < Z.of_nat (length body) ->
          0 < chunk_size ->
          Z.of_nat (length (fo_writes f))
          = (Z.of_nat (length body) + chunk_size - 1) / chunk_size
          /\ (forall i chunk,
                fo_writes f !! i = Some chunk ->
                (S i < length (fo_writes f))%nat ->
                Z.of_nat (length chunk) = chunk_size)
          /\ (exists final,
                last (fo_writes f) = Some final
                /\ Z.of_nat (length final)
                   = if Z.of_nat (length body) mod chunk_size =? 0
                     then chunk_size
                     else Z.of_nat (length body) mod chunk_size)
          /\ concat (fo_writes f) = body).
Proof.
  set (dest := resolve_dest url dest_path).
  intros Hx.
  destruct (invoke_stream w fs0 url dest_path chunk_size response declared
              Hx) as (Hf & _).
  cbn zeta in Hf.
  eexists. split; [exact Hf|]. cbn [fo_writes].
  split; [reflexivity|].
  split; [apply concat_filter_nonempty|].
  intros body Hit HS HC. rewrite Hit.
  rewrite blocks_all_written by done.
  split; [by apply blocks_count|].
  split; [intros i chunk; by apply blocks_full|].
  split; [|by apply blocks_concat].
  destruct (last (blocks chunk_size body)) as [final|] eqn:Hlast.
  - exists final. split; [reflexivity|]. by apply blocks_last.
  - apply last_None in Hlast.
    pose proof (blocks_concat chunk_size body HC) as Hcat.
    rewrite Hlast in Hcat. cbn in Hcat. subst body. cbn in HS. lia.
Qed.

Lemma C7_writes_are_the_chunks_received_witness :
  exists f,
    fobj (invoke (plain_server (zeros 5)) example_url None 2 ∅).2 = Some f
    /\ fo_writes f
       = List.filter nonempty
           (iter_content (whole_response 200 (length_header 5) (zeros 5))
                         2).1
    /\ concat (fo_writes f)
       = concat
           (iter_content (whole_response 200 (length_header 5) (zeros 5))
                         2).1
    /\ (forall body,
          (iter_content (whole_response 200 (length_header 5) (zeros 5))
                        2).1 = blocks 2 body ->
          0 < Z.of_nat (length body) ->
          0 < 2 ->
          Z.of_nat (length (fo_writes f))
          = (Z.of_nat (length body) + 2 - 1) / 2
          /\ (forall i chunk,
                fo_writes f !! i = Some chunk ->
                (S i < length (fo_writes f))%nat ->
                Z.of_nat (length chunk) = 2)
          /\ (exists final,
                last (fo_writes f) = Some final
                /\ Z.of_nat (length final)
                   = if Z.of_nat (length body) mod 2 =? 0
                     then 2
                     else Z.of_nat (length body) mod 2)
          /\ concat (fo_writes f) = body).
Proof.
  apply (C7_writes_are_the_chunks_received (plain_server (zeros 5)) ∅
           example_url None 2
           (whole_response 200 (length_header 5) (zeros 5)) 5).
  vm_compute. reflexivity.
Defined.

(** C7, counterexample: a resource of 3 bytes asked for in chunks of 2
    bytes and received in three chunks of 1 byte, as happens when the
    body is sent in pieces that small.  The download completes and the
    file holds the resource, but there were three writes of one byte
    each, not ceil(3/2) = 2 writes of 2 bytes and 1 byte. *)
Lemma C7_small_chunks_are_written_as_received :
  let r := invoke (fixed_server trickling_response) example_url None 2 ∅ in
  reported_status (stdout r.2) = Some Completed
  /\ fs r.2 !! "f.bin" = Some (zeros 3)
  /\ (exists f,
        fobj r.2 = Some f
        /\ fo_writes f = [zeros 1; zeros 1; zeros 1]
        /\ Z.of_nat (length (fo_writes f)) <> (3 + 2 - 1) / 2).
Proof.
  vm_compute. repeat split. eexists. repeat split. discriminate.
Qed.

(** C8 as the code has it: an error raised after the probe (by the
    request, the status check, the conversion of Content-Length, the
    printing of the total size, opening the destination or the stream, a
    user interrupt included) is caught,
    the invocation returns normally and announces one of the three
    outcomes; an error raised by the probe itself, when the size of the
    existing destination cannot be read, is not caught and leaves the
    function. *)
Theorem C8_only_probe_errors_escape w fs0 url dest_path chunk_size :
  match probe_fault w fs0 (resolve_dest url dest_path) with
  | Some e => (invoke w url dest_path chunk_size fs0).1 = Propagates e
  | None =>
    (invoke w url dest_path chunk_size fs0).1 = ReturnsNone
    /\ is_Some (reported_status
                  (stdout (invoke w url dest_path chunk_size fs0).2))
  end.
Proof.
  unfold invoke. rewrite run_completion, run_status.
  destruct (probe_fault w fs0 (resolve_dest url dest_path)) eqn:Hp;
    [reflexivity|].
  split; [reflexivity|]. by apply exit_status_some.
Qed.

(** C8, counterexamples: the destination exists but its size cannot be
    read, or the user interrupts while it is read.  Neither error is
    caught: it leaves the function, the destination is not treated as
    absent, nothing is requested and nothing is announced. *)
Lemma C8_probe_error_escapes :
  (invoke vanishing_file example_url None 2 {[ "f.bin" := zeros 2 ]}).1
  = Propagates (OSError "No such file or directory")
  /\ reported_status
       (stdout (invoke vanishing_file example_url None 2
                       {[ "f.bin" := zeros 2 ]}).2) = None
  /\ (invoke early_interrupt example_url None 2 {[ "f.bin" := zeros 2 ]}).1
     = Propagates KeyboardInterrupt
  /\ reported_status
       (stdout (invoke early_interrupt example_url None 2
                       {[ "f.bin" := zeros 2 ]}).2) = None.
Proof. vm_compute. repeat split. Qed.

(** C9: on every exit the file object of the [with] block is closed.
    The destination is opened only on the way that reaches the loop, and
    however the loop ends (the body is exhausted, the generator raises an
    error, the user interrupts) the object is closed when the invocation
    returns; on every other exit, the 416 one included, none was
    opened. *)
Theorem C9_file_object_closed_on_every_exit w fs0 url dest_path chunk_size :
  match exit_of w fs0 url (resolve_dest url dest_path) with
  | ExitStream _ _ =>
    exists f,
      fobj (invoke w url dest_path chunk_size fs0).2 = Some f
      /\ fo_closed f = true
  | _ => fobj (invoke w url dest_path chunk_size fs0).2 = None
  end.
Proof.
  set (dest := resolve_dest url dest_path).
  destruct (exit_of w fs0 url dest) as [e|e|r|r|r|r d|r d e|r d] eqn:Hx.
  8: { destruct (invoke_stream w fs0 url dest_path chunk_size r d Hx)
         as [Hf _]. cbn zeta in Hf. eexists. split; [exact Hf|reflexivity]. }
  all: rewrite invoke_exits; fold dest; rewrite Hx; cbn [run_of_exit snd].
  - reflexivity.
  - by destruct (handled_fields e (after_probe fs0 dest)) as (_ & -> & _).
  - reflexivity.
  - destruct (handled_fields (HTTPError (status_code r))
                (dispatched r (after_probe fs0 dest))) as (_ & -> & _).
    by destruct (dispatched_fields r (after_probe fs0 dest)) as (_ & ->).
  - destruct (handled_fields bad_length
                (dispatched r (after_probe fs0 dest))) as (_ & -> & _).
    by destruct (dispatched_fields r (after_probe fs0 dest)) as (_ & ->).
  - destruct (handled_fields total_overflow
                (totalled r d (dispatched r (after_probe fs0 dest))))
      as (_ & -> & _).
    rewrite (proj2 (totalled_fields _ _ _)).
    by destruct (dispatched_fields r (after_probe fs0 dest)) as (_ & ->).
  - destruct (handled_fields e
                (sized r d (dispatched r (after_probe fs0 dest))))
      as (_ & -> & _).
    by rewrite negotiated_fobj.
Qed.

(** C10: take an invocation that reaches the loop and any point of the
    loop, the chunks [pre] being through and the chunks [post] still to
    come.  The state [s] at that point is the state of this very run; in
    it the calls of [f.write] made so far are the non-empty chunks of
    [pre], in order, [current_size] is the offset settled by the
    negotiation plus the bytes of those calls, and
    [downloaded_in_session] is the bytes of those calls.  The offset is
    the size the probe found after a 206 and 0 after a 200.  At the end
    of the invocation the same holds for all the chunks. *)
Theorem C10_counter_invariant w fs0 url dest_path chunk_size response
  declared pre post :
  exit_of w fs0 url (resolve_dest url dest_path)
  = ExitStream response declared ->
  (iter_content response chunk_size).1 = pre ++ post ->
  let dest := resolve_dest url dest_path in
  let offset := resume_offset fs0 dest response in
  let s := (for_chunks (chunk_step w) pre None
              (loop_entry w fs0 dest response declared)).2 in
  loop_run w fs0 dest chunk_size response declared
  = for_chunks (chunk_step w) post (iter_content response chunk_size).2 s
  /\ (exists f,
        fobj s = Some f
        /\ fo_writes f = List.filter nonempty pre
        /\ current_size s = offset + total_len (fo_writes f)
        /\ downloaded_in_session s = total_len (fo_writes f))
  /\ (exists f,
        fobj (invoke w url dest_path chunk_size fs0).2 = Some f
        /\ fo_writes f = List.filter nonempty (pre ++ post)
        /\ current_size (invoke w url dest_path chunk_size fs0).2
           = offset + total_len (fo_writes f))
  /\ (status_code response = 206 -> offset = probed_size fs0 dest)
  /\ (status_code response = 200 -> offset = 0).
Proof.
  intros Hx Hsplit dest offset s.
  pose proof (for_chunks_spec w pre None
                (loop_entry w fs0 dest response declared)
                (mkFileObj dest (negotiated_mode fs0 dest response) false [])
                (kept_content fs0 dest response)) as Hpre.
  destruct Hpre as [Ho (Hf & _ & Hc & Hd & _)].
  { unfold loop_entry. by rewrite entry_fobj, negotiated_mode_eq. }
  { reflexivity. }
  { unfold loop_entry, kept_content.
    rewrite entry_fs, lookup_insert_eq.
    by rewrite negotiated_mode_eq, negotiated_fs. }
  fold s in Ho, Hf, Hc, Hd. cbn [fo_path fo_mode fo_writes app] in Hf.
  unfold loop_entry in Hc, Hd.
  destruct (entry_frame w dest
              (sized response declared
                 (dispatched response (after_probe fs0 dest))))
    as (Ec & _ & _ & _ & Ed).
  rewrite Ec, negotiated_offset in Hc. rewrite Ed in Hd.
  split; [|split; [|split; [|split]]].
  - unfold loop_run. rewrite Hsplit, for_chunks_app.
    fold (loop_entry w fs0 dest response declared).
    destruct (for_chunks (chunk_step w) pre None
                (loop_entry w fs0 dest response declared)) as [o s1].
    cbn in Ho. subst o. reflexivity.
  - eexists. split; [exact Hf|]. cbn [fo_writes]. repeat split; lia.
  - destruct (invoke_stream w fs0 url dest_path chunk_size response
                declared Hx) as (Hfe & _ & Hce & _).
    cbn zeta in Hfe, Hce. rewrite Hsplit in Hfe, Hce.
    eexists. split; [exact Hfe|]. split; [reflexivity|exact Hce].
  - intros Hs. unfold offset, resume_offset. by rewrite Hs.
  - intros Hs. unfold offset, resume_offset. by rewrite Hs.
Qed.

Lemma C10_counter_invariant_witness :
  let w := fixed_server gappy_response in
  let fs0 : gmap string bytes := {[ "f.bin" := zeros 2 ]} in
  let dest := resolve_dest example_url None in
  let offset := resume_offset fs0 dest gappy_response in
  let s := (for_chunks (chunk_step w) [zeros 2; []] None
              (loop_entry w fs0 dest gappy_response 3)).2 in
  loop_run w fs0 dest 2 gappy_response 3
  = for_chunks (chunk_step w) [zeros 1] (iter_content gappy_response 2).2 s
  /\ (exists f,
        fobj s = Some f
        /\ fo_writes f = List.filter nonempty [zeros 2; []]
        /\ current_size s = offset + total_len (fo_writes f)
        /\ downloaded_in_session s = total_len (fo_writes f))
  /\ (exists f,
        fobj (invoke w example_url None 2 fs0).2 = Some f
        /\ fo_writes f = List.filter nonempty ([zeros 2; []] ++ [zeros 1])
        /\ current_size (invoke w example_url None 2 fs0).2
           = offset + total_len (fo_writes f))
  /\ (status_code gappy_response = 206 -> offset = probed_size fs0 dest)
  /\ (status_code gappy_response = 200 -> offset = 0).
Proof.
  apply (C10_counter_invariant (fixed_server gappy_response)
           {[ "f.bin" := zeros 2 ]} example_url None 2 gappy_response 3
           [zeros 2; []] [zeros 1]);
    vm_compute; reflexivity.
Defined.

(** * Further properties *)

(** ** What an invocation does to the files *)

Lemma kept_length fs0 dest response :
  Z.of_nat (length (kept_content fs0 dest response))
  = resume_offset fs0 dest response.
Proof.
  unfold kept_content, negotiated_mode, resume_offset, probed_mode,
    probed_size.
  destruct (status_code response =? 200); cbn [andb].
  - destruct (fs0 !! dest) as [old|] eqn:E; [|reflexivity].
    destruct (0 <? Z.of_nat (length old)) eqn:E0; [reflexivity|].
    cbn. lia.
  - destruct (fs0 !! dest); reflexivity.
Qed.

Lemma invoke_fs w fs0 url dest_path chunk_size :
  fs (invoke w url dest_path chunk_size fs0).2
  = match exit_of w fs0 url (resolve_dest url dest_path) with
    | ExitStream response _ =>
      <[resolve_dest url dest_path :=
          kept_content fs0 (resolve_dest url dest_path) response
          ++ concat (iter_content response chunk_size).1]> fs0
    | _ => fs0
    end.
Proof.
  set (dest := resolve_dest url dest_path).
  destruct (exit_of w fs0 url dest) as [e|e|r|r|r|r d|r d e|r d] eqn:Hx.
  8: { destruct (invoke_stream w fs0 url dest_path chunk_size r d Hx)
         as (_ & Hfs & _). cbn zeta in Hfs. fold dest in Hfs.
       by rewrite Hfs, concat_filter_nonempty. }
  all: rewrite invoke_exits; fold dest; rewrite Hx; cbn [run_of_exit snd].
  - reflexivity.
  - apply handled_fields.
  - reflexivity.
  - rewrite (proj1 (handled_fields _ _)). apply dispatched_fields.
  - rewrite (proj1 (handled_fields _ _)). apply dispatched_fields.
  - rewrite (proj1 (handled_fields _ _)), (proj1 (totalled_fields _ _ _)).
    apply dispatched_fields.
  - rewrite (proj1 (handled_fields _ _)). apply negotiated_fs.
Qed.

(** X1: whatever the server does and however the invocation ends, no
    file other than the destination is created, changed or removed. *)
Theorem X1_other_files_untouched w fs0 url dest_path chunk_size path :
  path <> resolve_dest url dest_path ->
  fs (invoke w url dest_path chunk_size fs0).2 !! path = fs0 !! path.
Proof.
  intros Hne. rewrite invoke_fs.
  destruct (exit_of w fs0 url (resolve_dest url dest_path)); try reflexivity.
  by rewrite lookup_insert_ne.
Qed.

Lemma X1_other_files_untouched_witness :
  fs (invoke (plain_server (zeros 5)) example_url None 2
             {[ "g.bin" := zeros 1 ]}).2 !! "g.bin"
  = ({[ "g.bin" := zeros 1 ]} : gmap string bytes) !! "g.bin".
Proof.
  apply (X1_other_files_untouched (plain_server (zeros 5))
           {[ "g.bin" := zeros 1 ]} example_url None 2 "g.bin").
  vm_compute. discriminate.
Defined.

(** X2: the bytes of an existing destination are dropped on one path
    only, the restart (the loop is reached on status 200 and the
    destination was not empty): the destination then holds what was
    received.  On every other path that reaches the loop the old bytes
    stay and what was received follows them, and on every path that does
    not reach the loop the destination is as it was. *)
Theorem X2_existing_bytes_kept_unless_restart w fs0 url dest_path
  chunk_size old :
  fs0 !! resolve_dest url dest_path = Some old ->
  fs (invoke w url dest_path chunk_size fs0).2 !! resolve_dest url dest_path
  = match exit_of w fs0 url (resolve_dest url dest_path) with
    | ExitStream response _ =>
      if (status_code response =? 200) && (0 <? Z.of_nat (length old))
      then Some (concat (iter_content response chunk_size).1)
      else Some (old ++ concat (iter_content response chunk_size).1)
    | _ => Some old
    end.
Proof.
  intros Hold. rewrite invoke_fs.
  destruct (exit_of w fs0 url (resolve_dest url dest_path)) as
    [| | | | | | |r d]; try exact Hold.
  rewrite lookup_insert_eq.
  unfold kept_content, negotiated_mode, probed_size, probed_mode.
  rewrite Hold.
  by destruct ((status_code r =? 200) && (0 <? Z.of_nat (length old))).
Qed.

Lemma X2_existing_bytes_kept_unless_restart_witness :
  fs (invoke (range_server (zeros 5) 2) example_url None 2
             {[ "f.bin" := zeros 2 ]}).2 !! resolve_dest example_url None
  = match exit_of (range_server (zeros 5) 2) {[ "f.bin" := zeros 2 ]}
            example_url (resolve_dest example_url None) with
    | ExitStream response _ =>
      if (status_code response =? 200)
         && (0 <? Z.of_nat (length (zeros 2)))
      then Some (concat (iter_content response 2).1)
      else Some (zeros 2 ++ concat (iter_content response 2).1)
    | _ => Some (zeros 2)
    end.
Proof.
  apply (X2_existing_bytes_kept_unless_restart (range_server (zeros 5) 2)
           {[ "f.bin" := zeros 2 ]} example_url None 2 (zeros 2)).
  vm_compute. reflexivity.
Defined.

(** X3: a destination that does not exist is created only when the loop
    is reached, and then holds exactly what was received; a failed
    request, an error status, a rejected Content-Length, a total that
    cannot be printed or a failed open leave no file behind. *)
Theorem X3_absent_destination_created_only_by_loop w fs0 url dest_path
  chunk_size :
  fs0 !! resolve_dest url dest_path = None ->
  fs (invoke w url dest_path chunk_size fs0).2 !! resolve_dest url dest_path
  = match exit_of w fs0 url (resolve_dest url dest_path) with
    | ExitStream response _ =>
      Some (concat (iter_content response chunk_size).1)
    | _ => None
    end.
Proof.
  intros Hnone. rewrite invoke_fs.
  destruct (exit_of w fs0 url (resolve_dest url dest_path)) as
    [| | | | | | |r d]; try exact Hnone.
  rewrite lookup_insert_eq.
  unfold kept_content, negotiated_mode, probed_size, probed_mode.
  rewrite Hnone. by rewrite andb_false_r.
Qed.

Lemma X3_absent_destination_created_only_by_loop_witness :
  fs (invoke (fixed_server (whole_response 404 ∅ (zeros 3))) example_url
             None 2 ∅).2 !! resolve_dest example_url None
  = match exit_of (fixed_server (whole_response 404 ∅ (zeros 3))) ∅
            example_url (resolve_dest example_url None) with
    | ExitStream response _ => Some (concat (iter_content response 2).1)
    | _ => None
    end.
Proof.
  apply (X3_absent_destination_created_only_by_loop
           (fixed_server (whole_response 404 ∅ (zeros 3))) ∅ example_url
           None 2).
  vm_compute. reflexivity.
Defined.

(** X4: whenever the loop is reached, and whether the generator is
    exhausted or ends the loop with an error or an interrupt, the counter
    [current_size] ends equal to the size of the destination file, which
    is what the probe of the next invocation will find.  (Every
    [f.write] succeeds here, see the head of the file.) *)
Theorem X4_counter_is_file_size w fs0 url dest_path chunk_size response
  declared :
  exit_of w fs0 url (resolve_dest url dest_path)
  = ExitStream response declared ->
  exists content,
    fs (invoke w url dest_path chunk_size fs0).2
      !! resolve_dest url dest_path = Some content
    /\ current_size (invoke w url dest_path chunk_size fs0).2
       = Z.of_nat (length content)
    /\ probed_size (fs (invoke w url dest_path chunk_size fs0).2)
                   (resolve_dest url dest_path)
       = current_size (invoke w url dest_path chunk_size fs0).2.
Proof.
  intros Hx.
  destruct (invoke_stream w fs0 url dest_path chunk_size response declared
              Hx) as (_ & Hfs & Hc & _).
  cbn zeta in Hfs, Hc.
  assert (current_size (invoke w url dest_path chunk_size fs0).2
          = Z.of_nat (length
              (kept_content fs0 (resolve_dest url dest_path) response
               ++ concat (List.filter nonempty
                            (iter_content response chunk_size).1)))) as Hlen.
  { rewrite Hc, length_app, <- kept_length. unfold total_len. lia. }
  eexists. split; [by rewrite Hfs, lookup_insert_eq|].
  split; [exact Hlen|].
  unfold probed_size. by rewrite Hfs, lookup_insert_eq.
Qed.

Lemma X4_counter_is_file_size_witness :
  exists content,
    fs (invoke (fixed_server gappy_response) example_url None 2
               {[ "f.bin" := zeros 2 ]}).2
      !! resolve_dest example_url None = Some content
    /\ current_size (invoke (fixed_server gappy_response) example_url None 2
                            {[ "f.bin" := zeros 2 ]}).2
       = Z.of_nat (length content)
    /\ probed_size (fs (invoke (fixed_server gappy_response) example_url
                               None 2 {[ "f.bin" := zeros 2 ]}).2)
                   (resolve_dest example_url None)
       = current_size (invoke (fixed_server gappy_response) example_url
                              None 2 {[ "f.bin" := zeros 2 ]}).2.
Proof.
  apply (X4_counter_is_file_size (fixed_server gappy_response)
           {[ "f.bin" := zeros 2 ]} example_url None 2 gappy_response 3).
  vm_compute. reflexivity.
Defined.

(** ** Failures before the destination is opened *)

(** X5: when [requests.get] itself raises (no connection, a timeout, a
    user interrupt while waiting), the invocation returns normally,
    announces the failure with its reason (or the interruption), opens
    nothing and leaves every file as it was. *)
Theorem X5_request_error_touches_nothing w fs0 url dest_path chunk_size e :
  probe_fault w fs0 (resolve_dest url dest_path) = None ->
  w_get w url (sent_headers fs0 (resolve_dest url dest_path)) = inl e ->
  (invoke w url dest_path chunk_size fs0).1 = ReturnsNone
  /\ reported_status (stdout (invoke w url dest_path chunk_size fs0).2)
     = Some (status_of_exn e)
  /\ fobj (invoke w url dest_path chunk_size fs0).2 = None
  /\ fs (invoke w url dest_path chunk_size fs0).2 = fs0.
Proof.
  intros Hp Hg. rewrite invoke_exits.
  unfold exit_of. rewrite Hp, Hg. cbn [run_of_exit fst snd].
  split; [reflexivity|]. split; [apply reported_status_handled|].
  split; apply handled_fields.
Qed.

(** A world without network. *)
Lemma X5_request_error_touches_nothing_witness :
  let w := mkWorld None (fun _ _ => inl (RequestException "timed out"))
                   None seconds in
  (invoke w example_url None 2 {[ "f.bin" := zeros 2 ]}).1 = ReturnsNone
  /\ reported_status
       (stdout (invoke w example_url None 2 {[ "f.bin" := zeros 2 ]}).2)
     = Some (status_of_exn (RequestException "timed out"))
  /\ fobj (invoke w example_url None 2 {[ "f.bin" := zeros 2 ]}).2 = None
  /\ fs (invoke w example_url None 2 {[ "f.bin" := zeros 2 ]}).2
     = {[ "f.bin" := zeros 2 ]}.
Proof.
  apply (X5_request_error_touches_nothing
           (mkWorld None (fun _ _ => inl (RequestException "timed out"))
                    None seconds)
           {[ "f.bin" := zeros 2 ]} example_url None 2
           (RequestException "timed out"));
    vm_compute; reflexivity.
Defined.

(** X6: an answer with a 4xx or 5xx status other than 416 fails the
    invocation at [raise_for_status]: it returns normally, announces the
    failure with the status as its reason, opens nothing and leaves every
    file as it was, the partial destination included. *)
Theorem X6_error_status_touches_nothing w fs0 url dest_path chunk_size
  response :
  probe_fault w fs0 (resolve_dest url dest_path) = None ->
  w_get w url (sent_headers fs0 (resolve_dest url dest_path))
  = inr response ->
  400 <= status_code response < 600 ->
  status_code response <> 416 ->
  (invoke w url dest_path chunk_size fs0).1 = ReturnsNone
  /\ reported_status (stdout (invoke w url dest_path chunk_size fs0).2)
     = Some (Failed (HTTPError (status_code response)))
  /\ fobj (invoke w url dest_path chunk_size fs0).2 = None
  /\ fs (invoke w url dest_path chunk_size fs0).2 = fs0.
Proof. apply error_status_fails. Qed.

Lemma X6_error_status_touches_nothing_witness :
  (invoke (fixed_server (whole_response 404 ∅ (zeros 3))) example_url None 2
          {[ "f.bin" := zeros 2 ]}).1 = ReturnsNone
  /\ reported_status
       (stdout (invoke (fixed_server (whole_response 404 ∅ (zeros 3)))
                       example_url None 2 {[ "f.bin" := zeros 2 ]}).2)
     = Some (Failed (HTTPError
                       (status_code (whole_response 404 ∅ (zeros 3)))))
  /\ fobj (invoke (fixed_server (whole_response 404 ∅ (zeros 3)))
                  example_url None 2 {[ "f.bin" := zeros 2 ]}).2 = None
  /\ fs (invoke (fixed_server (whole_response 404 ∅ (zeros 3)))
                example_url None 2 {[ "f.bin" := zeros 2 ]}).2
     = {[ "f.bin" := zeros 2 ]}.
Proof.
  apply (X6_error_status_touches_nothing
           (fixed_server (whole_response 404 ∅ (zeros 3)))
           {[ "f.bin" := zeros 2 ]} example_url None 2
           (whole_response 404 ∅ (zeros 3)));
    [vm_compute; reflexivity | vm_compute; reflexivity
    | cbn; lia | cbn; lia].
Defined.

(** X7: a Content-Length that [int] rejects fails the invocation at line
    43, before the destination is opened: the failure is announced with
    the conversion error as its reason and every file is as it was, also
    on the restart path, where the restart has been announced by then. *)
Theorem X7_rejected_length_touches_nothing w fs0 url dest_path chunk_size
  response value :
  probe_fault w fs0 (resolve_dest url dest_path) = None ->
  w_get w url (sent_headers fs0 (resolve_dest url dest_path))
  = inr response ->
  status_code response = 200 \/ status_code response = 206 ->
  headers response !! "content-length" = Some value ->
  int_of_string value = None ->
  (invoke w url dest_path chunk_size fs0).1 = ReturnsNone
  /\ reported_status (stdout (invoke w url dest_path chunk_size fs0).2)
     = Some (Failed bad_length)
  /\ fobj (invoke w url dest_path chunk_size fs0).2 = None
  /\ fs (invoke w url dest_path chunk_size fs0).2 = fs0.
Proof.
  intros Hp Hg Hs Hv Hi. rewrite invoke_exits.
  unfold exit_of. rewrite Hp, Hg.
  assert ((status_code response =? 416) = false) as ->
    by (destruct Hs as [-> | ->]; reflexivity).
  assert (status_raises response = false) as ->
    by (unfold status_raises; destruct Hs as [-> | ->]; reflexivity).
  assert (declared_length response = None) as ->
    by (unfold declared_length; by rewrite Hv).
  cbn [run_of_exit fst snd].
  split; [reflexivity|]. split; [apply reported_status_handled|].
  split.
  - rewrite (proj1 (proj2 (handled_fields _ _))). apply dispatched_fields.
  - rewrite (proj1 (handled_fields _ _)). apply dispatched_fields.
Qed.

Lemma X7_rejected_length_touches_nothing_witness :
  let r := mkResponse 200 {[ "content-length" := "12a" ]}
             (fun _ => ([zeros 3], None)) in
  (invoke (fixed_server r) example_url None 2 {[ "f.bin" := zeros 2 ]}).1
  = ReturnsNone
  /\ reported_status
       (stdout (invoke (fixed_server r) example_url None 2
                       {[ "f.bin" := zeros 2 ]}).2)
     = Some (Failed bad_length)
  /\ fobj (invoke (fixed_server r) example_url None 2
                  {[ "f.bin" := zeros 2 ]}).2 = None
  /\ fs (invoke (fixed_server r) example_url None 2
                {[ "f.bin" := zeros 2 ]}).2 = {[ "f.bin" := zeros 2 ]}.
Proof.
  apply (X7_rejected_length_touches_nothing
           (fixed_server (mkResponse 200 {[ "content-length" := "12a" ]}
                            (fun _ => ([zeros 3], None))))
           {[ "f.bin" := zeros 2 ]} example_url None 2
           (mkResponse 200 {[ "content-length" := "12a" ]}
              (fun _ => ([zeros 3], None))) "12a");
    try (vm_compute; reflexivity).
  left. reflexivity.
Defined.

(** X8: the probe succeeds, the answer is 200 or 206 with a
    Content-Length that [int] accepts and a total that line 47 can print,
    and the destination cannot be opened.  The invocation then announces
    the failure with the error of [open] as its reason (or the
    interruption) and leaves every file as it was: the old bytes are not
    lost even though the restart may have been announced. *)
Theorem X8_open_error_touches_nothing w fs0 url dest_path chunk_size
  response declared e :
  probe_fault w fs0 (resolve_dest url dest_path) = None ->
  w_get w url (sent_headers fs0 (resolve_dest url dest_path))
  = inr response ->
  status_code response = 200 \/ status_code response = 206 ->
  declared_length response = Some declared ->
  mb_overflows
    (expected_total fs0 (resolve_dest url dest_path) response declared)
  = false ->
  w_open_fault w = Some e ->
  (invoke w url dest_path chunk_size fs0).1 = ReturnsNone
  /\ reported_status (stdout (invoke w url dest_path chunk_size fs0).2)
     = Some (status_of_exn e)
  /\ fobj (invoke w url dest_path chunk_size fs0).2 = None
  /\ fs (invoke w url dest_path chunk_size fs0).2 = fs0.
Proof.
  intros Hp Hg Hs Hd Ht Ho. rewrite invoke_exits.
  unfold exit_of. rewrite Hp, Hg.
  assert ((status_code response =? 416) = false) as ->
    by (destruct Hs as [-> | ->]; reflexivity).
  assert (status_raises response = false) as ->
    by (unfold status_raises; destruct Hs as [-> | ->]; reflexivity).
  rewrite Hd, Ht, Ho. cbn [run_of_exit fst snd].
  split; [reflexivity|]. split; [apply reported_status_handled|].
  split.
  - rewrite (proj1 (proj2 (handled_fields _ _))). apply negotiated_fobj.
  - rewrite (proj1 (handled_fields _ _)). apply negotiated_fs.
Qed.

Lemma X8_open_error_touches_nothing_witness :
  let r := whole_response 200 (length_header 3) (zeros 3) in
  let w := mkWorld None (fun _ _ => inr r)
                   (Some (OSError "Permission denied")) seconds in
  (invoke w example_url None 2 {[ "f.bin" := zeros 2 ]}).1 = ReturnsNone
  /\ reported_status
       (stdout (invoke w example_url None 2 {[ "f.bin" := zeros 2 ]}).2)
     = Some (status_of_exn (OSError "Permission denied"))
  /\ fobj (invoke w example_url None 2 {[ "f.bin" := zeros 2 ]}).2 = None
  /\ fs (invoke w example_url None 2 {[ "f.bin" := zeros 2 ]}).2
     = {[ "f.bin" := zeros 2 ]}.
Proof.
  apply (X8_open_error_touches_nothing
           (mkWorld None
              (fun _ _ =>
                 inr (whole_response 200 (length_header 3) (zeros 3)))
              (Some (OSError "Permission denied")) seconds)
           {[ "f.bin" := zeros 2 ]} example_url None 2
           (whole_response 200 (length_header 3) (zeros 3)) 3
           (OSError "Permission denied"));
    try (vm_compute; reflexivity).
  left. reflexivity.
Defined.

(** ** Resuming over several invocations *)

Lemma kept_content_200 fs0 dest response :
  status_code response = 200 -> kept_content fs0 dest response = [].
Proof.
  intros Hs. apply nil_length_inv.
  pose proof (kept_length fs0 dest response) as H.
  unfold resume_offset in H. rewrite Hs in H. cbn in H. lia.
Qed.

Lemma kept_content_not_200 fs0 dest response :
  status_code response <> 200 ->
  kept_content fs0 dest response = default [] (fs0 !! dest).
Proof.
  intros Hs. unfold kept_content, negotiated_mode, probed_mode.
  assert ((status_code response =? 200) = false) as -> by lia.
  cbn. by destruct (fs0 !! dest).
Qed.

Lemma prefix_extend (old chunks body : bytes) :
  old `prefix_of` body ->
  chunks `prefix_of` drop (length old) body ->
  (old ++ chunks) `prefix_of` body.
Proof.
  intros [k ->] Hc. rewrite drop_app_length in Hc.
  destruct Hc as [k' ->]. exists k'. by rewrite app_assoc.
Qed.

Lemma stream_not_error w fs0 url dest response declared :
  exit_of w fs0 url dest = ExitStream response declared ->
  400 <= status_code response < 600 -> False.
Proof.
  intros Hx Hs. apply exit_stream_inv in Hx as (_ & _ & _ & Hr & _).
  unfold status_raises in Hr.
  destruct (status_code response =? 206) eqn:E1; [lia|].
  destruct (status_code response =? 200) eqn:E2; [lia|].
  cbn in Hr. apply andb_false_iff in Hr as [Hr | Hr]; lia.
Qed.

Lemma invoke_keeps_prefix w fs0 url dest_path chunk_size body :
  holds_prefix body fs0 (resolve_dest url dest_path) ->
  (forall response,
     w_get w url (sent_headers fs0 (resolve_dest url dest_path))
     = inr response ->
     serves body (probed_size fs0 (resolve_dest url dest_path)) chunk_size
            response) ->
  holds_prefix body (fs (invoke w url dest_path chunk_size fs0).2)
               (resolve_dest url dest_path).
Proof.
  set (dest := resolve_dest url dest_path).
  intros Hpre Hserve. rewrite invoke_fs. fold dest.
  destruct (exit_of w fs0 url dest) as [| | | | | | |r d] eqn:Hx;
    try exact Hpre.
  pose proof Hx as Hinv. apply exit_stream_inv in Hinv as (_ & Hg & _).
  unfold holds_prefix. rewrite lookup_insert_eq.
  destruct (Hserve r Hg) as [[Hs Hc] | [[Hs Hc] | Hs]].
  - by rewrite kept_content_200.
  - rewrite kept_content_not_200 by lia.
    unfold holds_prefix in Hpre. unfold probed_size in Hc.
    destruct (fs0 !! dest) as [old|]; cbn.
    + apply prefix_extend; [done|]. by rewrite Nat2Z.id in Hc.
    + exact Hc.
  - destruct (stream_not_error w fs0 url dest r d Hx Hs).
Qed.

(** X9: if the destination holds nothing but a beginning of the resource
    and the server answers as a server of that resource may (the whole
    resource with 200, the rest with 206, or an error), then after the
    invocation, however it ended, the destination still holds nothing but
    a beginning of the resource. *)
Theorem X9_prefix_preserved w fs0 url dest_path chunk_size body :
  holds_prefix body fs0 (resolve_dest url dest_path) ->
  (forall response,
     w_get w url (sent_headers fs0 (resolve_dest url dest_path))
     = inr response ->
     serves body (probed_size fs0 (resolve_dest url dest_path)) chunk_size
            response) ->
  holds_prefix body (fs (invoke w url dest_path chunk_size fs0).2)
               (resolve_dest url dest_path).
Proof. apply invoke_keeps_prefix. Qed.

Lemma X9_prefix_preserved_witness :
  holds_prefix (zeros 5)
    (fs (invoke (fixed_server broken_response) example_url None 2
                {[ "f.bin" := zeros 1 ]}).2)
    (resolve_dest example_url None).
Proof.
  apply (X9_prefix_preserved (fixed_server broken_response)
           {[ "f.bin" := zeros 1 ]} example_url None 2 (zeros 5)).
  - exists (zeros 4). vm_compute. reflexivity.
  - intros response [= <-]. left. split; [reflexivity|].
    exists (zeros 3). vm_compute. reflexivity.
Defined.

(** X10: the same over any number of invocations in a row: as long as
    every answer is one a server of the resource may give, the
    destination never holds anything but a beginning of the resource, so
    nothing is ever duplicated, dropped or written out of place by
    resuming. *)
Theorem X10_runs_keep_prefix ws url dest_path chunk_size body :
  forall fs0,
  holds_prefix body fs0 (resolve_dest url dest_path) ->
  Forall
    (fun w =>
       forall files response,
         holds_prefix body files (resolve_dest url dest_path) ->
         w_get w url (sent_headers files (resolve_dest url dest_path))
         = inr response ->
         serves body (probed_size files (resolve_dest url dest_path))
                chunk_size response)
    ws ->
  holds_prefix body (invoke_all ws url dest_path chunk_size fs0)
               (resolve_dest url dest_path).
Proof.
  induction ws as [|w ws IH]; intros fs0 Hpre Hall; [exact Hpre|].
  apply Forall_cons in Hall as [Hw Hws].
  cbn [invoke_all]. apply IH; [|exact Hws].
  apply invoke_keeps_prefix; [exact Hpre|].
  intros response Hg. by apply Hw.
Qed.

Lemma X10_runs_keep_prefix_witness :
  holds_prefix (zeros 5)
    (invoke_all [fixed_server broken_response; fixed_server broken_response]
                example_url None 2 ∅)
    (resolve_dest example_url None).
Proof.
  apply (X10_runs_keep_prefix
           [fixed_server broken_response; fixed_server broken_response]
           example_url None 2 (zeros 5) ∅).
  - vm_compute. exact I.
  - apply Forall_cons_2; [|apply Forall_cons_2; [|apply Forall_nil_2]];
      intros files response _ [= <-]; left;
      (split; [reflexivity|]); exists (zeros 3); vm_compute; reflexivity.
Defined.

Lemma completing_run_yields_body w fs0 url dest_path chunk_size body
  response declared :
  holds_prefix body fs0 (resolve_dest url dest_path) ->
  probe_fault w fs0 (resolve_dest url dest_path) = None ->
  w_get w url (sent_headers fs0 (resolve_dest url dest_path))
  = inr response ->
  delivers_all body (probed_size fs0 (resolve_dest url dest_path))
               chunk_size response ->
  declared_length response = Some declared ->
  mb_overflows
    (expected_total fs0 (resolve_dest url dest_path) response declared)
  = false ->
  w_open_fault w = None ->
  fs (invoke w url dest_path chunk_size fs0).2 !! resolve_dest url dest_path
  = Some body
  /\ reported_status (stdout (invoke w url dest_path chunk_size fs0).2)
     = Some Completed.
Proof.
  set (dest := resolve_dest url dest_path).
  intros Hpre Hp Hg [Hstop Hall] Hd Ht Ho.
  assert (exit_of w fs0 url dest = ExitStream response declared) as Hx.
  { apply exit_stream_ok; try done. destruct Hall as [[? _] | [? _]]; auto. }
  split.
  - rewrite invoke_fs. fold dest. rewrite Hx, lookup_insert_eq. f_equal.
    destruct Hall as [[Hs Hc] | [Hs Hc]].
    + by rewrite kept_content_200, Hc.
    + rewrite kept_content_not_200, Hc by lia.
      unfold holds_prefix in Hpre. unfold probed_size.
      destruct (fs0 !! dest) as [old|]; cbn.
      * destruct Hpre as [k ->].
        by rewrite Nat2Z.id, drop_app_length.
      * reflexivity.
  - unfold invoke. rewrite run_status. fold dest. rewrite Hx.
    cbn [exit_status]. by rewrite Hstop.
Qed.

(** X11: the destination holds nothing but a beginning of the resource
    (or does not exist), the probe and [open] succeed, the Content-Length
    is one that [int] accepts and gives a total that line 47 can print,
    and the server delivers all there is to deliver, the whole resource
    with 200 or the missing rest with 206.  Then the destination ends up
    holding exactly the resource and the download is announced as
    complete. *)
Theorem X11_completing_run_yields_resource w fs0 url dest_path chunk_size
  body response declared :
  holds_prefix body fs0 (resolve_dest url dest_path) ->
  probe_fault w fs0 (resolve_dest url dest_path) = None ->
  w_get w url (sent_headers fs0 (resolve_dest url dest_path))
  = inr response ->
  delivers_all body (probed_size fs0 (resolve_dest url dest_path))
               chunk_size response ->
  declared_length response = Some declared ->
  mb_overflows
    (expected_total fs0 (resolve_dest url dest_path) response declared)
  = false ->
  w_open_fault w = None ->
  fs (invoke w url dest_path chunk_size fs0).2 !! resolve_dest url dest_path
  = Some body
  /\ reported_status (stdout (invoke w url dest_path chunk_size fs0).2)
     = Some Completed.
Proof. apply completing_run_yields_body. Qed.

Lemma X11_completing_run_yields_resource_witness :
  fs (invoke (range_server (zeros 5) 2) example_url None 2
             {[ "f.bin" := zeros 2 ]}).2 !! resolve_dest example_url None
  = Some (zeros 5)
  /\ reported_status
       (stdout (invoke (range_server (zeros 5) 2) example_url None 2
                       {[ "f.bin" := zeros 2 ]}).2)
     = Some Completed.
Proof.
  apply (X11_completing_run_yields_resource (range_server (zeros 5) 2)
           {[ "f.bin" := zeros 2 ]} example_url None 2 (zeros 5)
           (whole_response 206 (length_header 3) (zeros 3)) 3).
  - exists (zeros 3). vm_compute. reflexivity.
  - vm_compute. reflexivity.
  - vm_compute. reflexivity.
  - split; [reflexivity|]. right. split; vm_compute; reflexivity.
  - vm_compute. reflexivity.
  - vm_compute. reflexivity.
  - reflexivity.
Defined.

(** X12: any number of invocations against a server of the resource,
    however each of them ended, followed by one invocation in which the
    probe and [open] succeed, the Content-Length is one that [int]
    accepts and gives a total that line 47 can print, and the server
    delivers all there is to deliver, leave the destination holding
    exactly the resource. *)
Theorem X12_resume_after_interruptions ws w url dest_path chunk_size body
  fs0 response declared :
  holds_prefix body fs0 (resolve_dest url dest_path) ->
  Forall
    (fun w' =>
       forall files response',
         holds_prefix body files (resolve_dest url dest_path) ->
         w_get w' url (sent_headers files (resolve_dest url dest_path))
         = inr response' ->
         serves body (probed_size files (resolve_dest url dest_path))
                chunk_size response')
    ws ->
  probe_fault w (invoke_all ws url dest_path chunk_size fs0)
              (resolve_dest url dest_path) = None ->
  w_get w url
        (sent_headers (invoke_all ws url dest_path chunk_size fs0)
                      (resolve_dest url dest_path))
  = inr response ->
  delivers_all body
    (probed_size (invoke_all ws url dest_path chunk_size fs0)
                 (resolve_dest url dest_path))
    chunk_size response ->
  declared_length response = Some declared ->
  mb_overflows
    (expected_total (invoke_all ws url dest_path chunk_size fs0)
                    (resolve_dest url dest_path) response declared)
  = false ->
  w_open_fault w = None ->
  fs (invoke w url dest_path chunk_size
             (invoke_all ws url dest_path chunk_size fs0)).2
    !! resolve_dest url dest_path
  = Some body.
Proof.
  intros Hpre Hws Hp Hg Hall Hd Ht Ho.
  eapply completing_run_yields_body; eauto.
  clear Hp Hg Hall Ht.
  revert fs0 Hpre.
  induction ws as [|w0 ws IH]; intros fs0 Hpre; [exact Hpre|].
  apply Forall_cons in Hws as [Hw Hws].
  cbn [invoke_all]. apply IH; [exact Hws|].
  apply invoke_keeps_prefix; [exact Hpre|].
  intros r Hr. by apply Hw.
Qed.

Lemma X12_resume_after_interruptions_witness :
  fs (invoke (range_server (zeros 5) 2) example_url None 2
             (invoke_all [fixed_server broken_response] example_url None 2
                         ∅)).2
    !! resolve_dest example_url None
  = Some (zeros 5).
Proof.
  apply (X12_resume_after_interruptions [fixed_server broken_response]
           (range_server (zeros 5) 2) example_url None 2 (zeros 5) ∅
           (whole_response 206 (length_header 3) (zeros 3)) 3).
  - vm_compute. exact I.
  - apply Forall_cons_2; [|apply Forall_nil_2].
    intros files response _ [= <-]; left;
      (split; [reflexivity|]); exists (zeros 3); vm_compute; reflexivity.
  - vm_compute. reflexivity.
  - vm_compute. reflexivity.
  - split; [reflexivity|]. right. split; vm_compute; reflexivity.
  - vm_compute. reflexivity.
  - vm_compute. reflexivity.
  - reflexivity.
Defined.

(** ** The progress lines *)

Lemma chunk_step_line w b c s f :
  fobj s = Some f -> fo_closed f = false ->
  exists s1,
    chunk_step w (b :: c) s = (Val tt, s1)
    /\ (exists f1, fobj s1 = Some f1 /\ fo_closed f1 = false)
    /\ current_size s1 = current_size s + Z.of_nat (length (b :: c))
    /\ total_size s1 = total_size s
    /\ exists m,
         stdout s1 = stdout s ++ [m]
         /\ shows_size (total_size s) m
              (current_size s + Z.of_nat (length (b :: c))).
Proof.
  intros Hf Hc.
  unfold chunk_step, f_write, bind at 1. rewrite Hf, Hc.
  cbn. eexists; split; [reflexivity|]. cbn.
  split; [eauto|]. split; [reflexivity|]. split; [reflexivity|].
  eexists. split; [reflexivity|]. eexists. reflexivity.
Qed.

Lemma for_chunks_lines w chunks stop : forall s f,
  fobj s = Some f -> fo_closed f = false ->
  exists lines,
    stdout (for_chunks (chunk_step w) chunks stop s).2 = stdout s ++ lines
    /\ Forall2 (shows_size (total_size s)) lines
         (running_sizes (current_size s) (List.filter nonempty chunks)).
Proof.
  induction chunks as [|c rest IH]; intros s f Hf Hc.
  - exists []. split; [|constructor].
    cbn. destruct stop; cbn; by rewrite app_nil_r.
  - destruct c as [|b c].
    + cbn [for_chunks List.filter nonempty]. unfold bind. cbn.
      by apply (IH s f).
    + destruct (chunk_step_line w b c s f Hf Hc)
        as (s1 & Hstep & (f1 & Hf1 & Hc1) & Hsize & Htot & m & Hout & Hm).
      cbn [for_chunks List.filter nonempty]. unfold bind. rewrite Hstep.
      destruct (IH s1 f1 Hf1 Hc1) as (lines & Hlines & Hall).
      exists (m :: lines). split.
      * rewrite Hlines, Hout, <- app_assoc. reflexivity.
      * cbn [running_sizes]. constructor; [exact Hm|].
        by rewrite <- Htot, <- Hsize.
Qed.

Lemma progress_lines_quiet out :
  Forall quiet out -> progress_lines out = [].
Proof.
  induction 1 as [|m out Hm _ IH]; [reflexivity|].
  unfold progress_lines in *. cbn. rewrite IH.
  by destruct m.
Qed.

Lemma progress_lines_all total lines sizes :
  Forall2 (shows_size total) lines sizes -> progress_lines lines = lines.
Proof.
  induction 1 as [|m size lines sizes [speed ->] _ IH]; [reflexivity|].
  unfold progress_lines in *. cbn. by rewrite IH.
Qed.

Lemma progress_lines_app out1 out2 :
  progress_lines (out1 ++ out2) = progress_lines out1 ++ progress_lines out2.
Proof. apply List.filter_app. Qed.

Lemma progress_lines_follow_writes w fs0 url dest_path chunk_size
  response declared :
  exit_of w fs0 url (resolve_dest url dest_path)
  = ExitStream response declared ->
  Forall2
    (shows_size (total_size (invoke w url dest_path chunk_size fs0).2))
    (progress_lines (stdout (invoke w url dest_path chunk_size fs0).2))
    (running_sizes
       (resume_offset fs0 (resolve_dest url dest_path) response)
       (List.filter nonempty (iter_content response chunk_size).1)).
Proof.
  set (dest := resolve_dest url dest_path). intros Hx.
  destruct (invoke_stream w fs0 url dest_path chunk_size response declared
              Hx) as (_ & _ & _ & _ & _ & Ht).
  cbn zeta in Ht. fold dest in Ht. rewrite Ht.
  destruct (run_stream_state w fs0 url dest_path chunk_size response
              declared Hx) as [_ Hs].
  cbn zeta in Hs. fold dest in Hs. unfold invoke. rewrite Hs.
  destruct (for_chunks_lines w (iter_content response chunk_size).1
              (iter_content response chunk_size).2
              (loop_entry w fs0 dest response declared)
              (mkFileObj dest
                 (mode (sized response declared
                          (dispatched response (after_probe fs0 dest))))
                 false []))
    as (lines & Hlines & Hall); [reflexivity|reflexivity|].
  fold (loop_run w fs0 dest chunk_size response declared) in Hlines.
  unfold loop_entry in Hall, Hlines.
  destruct (entry_frame w dest
              (sized response declared
                 (dispatched response (after_probe fs0 dest))))
    as (Ec & _ & Et & Eo & _).
  rewrite Ec, Et, negotiated_offset, negotiated_total in Hall.
  rewrite Eo in Hlines.
  assert (progress_lines
            (stdout (stream_end w fs0 dest chunk_size response declared))
          = lines) as Hend.
  { unfold stream_end.
    assert (stdout (close_ (loop_run w fs0 dest chunk_size response
                              declared).2)
            = stdout (loop_run w fs0 dest chunk_size response declared).2)
      as -> by (unfold close_; by destruct (fobj _)).
    rewrite Hlines, progress_lines_app,
      (progress_lines_quiet _ (negotiated_quiet fs0 dest response declared)).
    cbn [app]. by eapply progress_lines_all. }
  assert (forall m, quiet m ->
            progress_lines
              (stdout (emit m (stream_end w fs0 dest chunk_size response
                                 declared))) = lines) as Hemit.
  { intros m Hm. cbn [emit stdout set_stdout].
    rewrite progress_lines_app, Hend.
    rewrite (progress_lines_quiet [m]) by (by constructor).
    apply app_nil_r. }
  destruct (iter_content response chunk_size).2 as [e|].
  - destruct e; cbn [handled].
    all: try (rewrite Hemit by exact I; exact Hall).
    all: cbn [emit stdout set_stdout];
      rewrite !progress_lines_app, Hend;
      rewrite !(progress_lines_quiet [_]) by (by constructor);
      rewrite !app_nil_r; exact Hall.
  - rewrite Hemit by exact I. exact Hall.
Qed.

(** X13: in an invocation that reaches the loop there is exactly one
    progress line for each call of [f.write], in the same order, and the
    line displays the value of the byte counter right after that call:
    the offset settled by the negotiation plus the bytes written so far,
    as a size in MB and as a percentage of the total size. *)
Theorem X13_progress_lines_follow_writes w fs0 url dest_path chunk_size
  response declared :
  exit_of w fs0 url (resolve_dest url dest_path)
  = ExitStream response declared ->
  Forall2
    (shows_size (total_size (invoke w url dest_path chunk_size fs0).2))
    (progress_lines (stdout (invoke w url dest_path chunk_size fs0).2))
    (running_sizes
       (resume_offset fs0 (resolve_dest url dest_path) response)
       (List.filter nonempty (iter_content response chunk_size).1)).
Proof. apply progress_lines_follow_writes. Qed.

Lemma X13_progress_lines_follow_writes_witness :
  Forall2
    (shows_size
       (total_size (invoke (fixed_server gappy_response) example_url None 2
                           {[ "f.bin" := zeros 2 ]}).2))
    (progress_lines
       (stdout (invoke (fixed_server gappy_response) example_url None 2
                       {[ "f.bin" := zeros 2 ]}).2))
    (running_sizes
       (resume_offset {[ "f.bin" := zeros 2 ]}
                      (resolve_dest example_url None) gappy_response)
       (List.filter nonempty (iter_content gappy_response 2).1)).
Proof.
  apply (X13_progress_lines_follow_writes (fixed_server gappy_response)
           {[ "f.bin" := zeros 2 ]} example_url None 2 gappy_response 3).
  vm_compute. reflexivity.
Defined.

(** ** The destination name and the script *)

Lemma append_cons x (a b : string) : String x a +:+ b = String x (a +:+ b).
Proof. reflexivity. Qed.

Lemma append_empty_l (a : string) : EmptyString +:+ a = a.
Proof. reflexivity. Qed.

Lemma append_assoc (a b c : string) : (a +:+ b) +:+ c = a +:+ (b +:+ c).
Proof.
  induction a as [|x a IH]; [reflexivity|].
  by rewrite !append_cons, IH.
Qed.

Lemma append_empty_r (a : string) : a +:+ EmptyString = a.
Proof.
  induction a as [|x a IH]; [reflexivity|]. by rewrite append_cons, IH.
Qed.

Lemma last_segment_from_no_slash name : forall cur,
  has_slash name = false -> last_segment_from cur name = cur +:+ name.
Proof.
  induction name as [|c name IH]; intros cur Hn; cbn.
  - by rewrite append_empty_r.
  - cbn in Hn. apply orb_false_iff in Hn as [Hc Hn].
    rewrite Hc, IH by done. by rewrite append_assoc, append_cons.
Qed.

Lemma last_segment_from_slash before name : forall cur,
  last_segment_from cur (before +:+ String "/" name)
  = last_segment_from EmptyString name.
Proof.
  induction before as [|c before IH]; intros cur.
  - reflexivity.
  - rewrite append_cons. cbn. destruct (Ascii.eqb c "/"); apply IH.
Qed.

Lemma last_segment_from_has_no_slash url : forall cur,
  has_slash cur = false ->
  has_slash (last_segment_from cur url) = false.
Proof.
  induction url as [|c url IH]; intros cur Hcur; cbn; [exact Hcur|].
  destruct (Ascii.eqb c "/") eqn:Hc; [by apply IH|].
  apply IH. clear IH.
  induction cur as [|x cur IHc].
  - rewrite append_empty_l. cbn. by rewrite Hc.
  - cbn in Hcur. apply orb_false_iff in Hcur as [Hx Hcur].
    rewrite append_cons. cbn. rewrite Hx. by apply IHc.
Qed.

(** X14: the file name derived from a URL is what follows its last
    slash: for a name without a slash, [before/name] gives [name]
    whatever [before] is, and a URL without any slash gives itself. *)
Theorem X14_last_segment_after_last_slash before name :
  has_slash name = false ->
  last_segment (before +:+ String "/" name) = name
  /\ last_segment name = name.
Proof.
  intros Hn. unfold last_segment. split.
  - rewrite last_segment_from_slash. by apply last_segment_from_no_slash.
  - by apply last_segment_from_no_slash.
Qed.

Lemma X14_last_segment_after_last_slash_witness :
  last_segment ("http://host/dir" +:+ String "/" "f.bin") = "f.bin"
  /\ last_segment "f.bin" = "f.bin".
Proof.
  apply (X14_last_segment_after_last_slash "http://host/dir" "f.bin").
  vm_compute. reflexivity.
Defined.

(** X15: the derived file name never contains a slash, so the default
    destination is always a plain name in the current directory; for a
    URL that ends in a slash it is the empty name. *)
Theorem X15_default_destination_is_plain_name url :
  has_slash (resolve_dest url None) = false
  /\ resolve_dest (url +:+ "/") None = EmptyString.
Proof.
  cbn [resolve_dest]. unfold last_segment. split.
  - by apply last_segment_from_has_no_slash.
  - change "/" with (String "/" EmptyString).
    by rewrite last_segment_from_slash.
Qed.

Lemma main_fs w argv fs0 path :
  (forall prog url rest,
     argv = prog :: url :: rest -> path <> resolve_dest url (head rest)) ->
  fs (main w argv (init_state fs0)).2 !! path = fs0 !! path.
Proof.
  intros Hne. destruct argv as [|prog [|url rest]]; try reflexivity.
  cbn [main].
  change (download_file_resumable w url (head rest) default_chunk_size
            (init_state fs0))
    with (invoke w url (head rest) default_chunk_size fs0).
  rewrite invoke_fs.
  destruct (exit_of w fs0 url (resolve_dest url (head rest)));
    try reflexivity.
  rewrite lookup_insert_ne; [reflexivity|].
  intros Heq. by apply (Hne prog url rest).
Qed.

(** X16: the script, whatever its arguments: a file is only ever touched
    if it is the destination, that is the third argument or, without
    one, the last segment of the URL; arguments after the third are
    ignored; and with fewer than two arguments nothing is touched at all:
    the script prints the two usage lines and ends. *)
Theorem X16_script_touches_only_destination w argv fs0 path :
  (forall prog url rest,
     argv = prog :: url :: rest -> path <> resolve_dest url (head rest)) ->
  fs (main w argv (init_state fs0)).2 !! path = fs0 !! path
  /\ ((length argv < 2)%nat ->
      main w argv (init_state fs0)
      = (ReturnsNone, emit MsgExample (emit MsgUsage (init_state fs0)))).
Proof.
  intros Hne. split; [by apply main_fs|].
  intros Hlen. destruct argv as [|prog [|url rest]]; try reflexivity.
  cbn in Hlen. lia.
Qed.

Lemma X16_script_touches_only_destination_witness :
  fs (main (plain_server (zeros 5))
           ["download_resumable.py"; example_url; "out.bin"; "ignored"]
           (init_state {[ "f.bin" := zeros 1 ]})).2 !! "f.bin"
  = ({[ "f.bin" := zeros 1 ]} : gmap string bytes) !! "f.bin"
  /\ ((length ["download_resumable.py"; example_url; "out.bin"; "ignored"]
       < 2)%nat ->
      main (plain_server (zeros 5))
           ["download_resumable.py"; example_url; "out.bin"; "ignored"]
           (init_state {[ "f.bin" := zeros 1 ]})
      = (ReturnsNone,
         emit MsgExample
           (emit MsgUsage (init_state {[ "f.bin" := zeros 1 ]})))).
Proof.
  apply (X16_script_touches_only_destination (plain_server (zeros 5))
           ["download_resumable.py"; example_url; "out.bin"; "ignored"]
           {[ "f.bin" := zeros 1 ]} "f.bin").
  intros prog url rest [= <- <- <-]. vm_compute. discriminate.
Defined.

(** ** The request and the announced total *)

(** X17: a Range header is sent exactly when the destination exists and
    is not empty, and it asks for the bytes from the size of the file on;
    an existing empty file, like a missing one, sends a request without
    any header. *)
Theorem X17_range_header_iff_nonempty w fs0 dest :
  probe_fault w fs0 dest = None ->
  exists hdrs s,
    (probe w dest >> request_headers) (init_state fs0) = (Val hdrs, s)
    /\ (forall content,
          fs0 !! dest = Some content -> content <> [] ->
          hdrs = {[ "Range" := "bytes="
                               +:+ pretty (Z.of_nat (length content))
                               +:+ "-" ]})
    /\ (fs0 !! dest = None \/ fs0 !! dest = Some [] -> hdrs = ∅).
Proof.
  intros Hp. exists (sent_headers fs0 dest), (after_probe fs0 dest).
  split; [|split].
  - pose proof (probe_headers w fs0 dest ret Hp) as H.
    unfold bind in *.
    destruct (probe w dest (init_state fs0)) as [[| |] ?]; try done.
    by destruct (request_headers s) as [[| |] ?].
  - intros content Hc Hne. unfold sent_headers, probed_size. rewrite Hc.
    destruct content; [done|]. reflexivity.
  - intros [Hc | Hc]; unfold sent_headers, probed_size; by rewrite Hc.
Qed.

Lemma X17_range_header_iff_nonempty_witness :
  exists hdrs s,
    (probe (plain_server (zeros 5)) "f.bin" >> request_headers)
      (init_state {[ "f.bin" := zeros 2 ]}) = (Val hdrs, s)
    /\ (forall content,
          ({[ "f.bin" := zeros 2 ]} : gmap string bytes) !! "f.bin"
          = Some content -> content <> [] ->
          hdrs = {[ "Range" := "bytes="
                               +:+ pretty (Z.of_nat (length content))
                               +:+ "-" ]})
    /\ (({[ "f.bin" := zeros 2 ]} : gmap string bytes) !! "f.bin" = None
        \/ ({[ "f.bin" := zeros 2 ]} : gmap string bytes) !! "f.bin"
           = Some [] -> hdrs = ∅).
Proof.
  apply (X17_range_header_iff_nonempty (plain_server (zeros 5))
           {[ "f.bin" := zeros 2 ]} "f.bin").
  vm_compute. reflexivity.
Defined.

Lemma running_sizes_last start written :
  written <> [] ->
  last (running_sizes start written) = Some (start + total_len written).
Proof.
  revert start. induction written as [|c rest IH]; intros start Hne; [done|].
  cbn [running_sizes]. rewrite total_len_cons.
  destruct rest as [|c' rest'].
  - cbn. rewrite total_len_nil. f_equal. lia.
  - specialize (IH (start + Z.of_nat (length c)) ltac:(done)).
    cbn [running_sizes] in *. rewrite last_cons, IH.
    f_equal. lia.
Qed.

Lemma Forall2_last {A B} (R : A -> B -> Prop) l k y :
  Forall2 R l k -> last k = Some y -> exists x, last l = Some x /\ R x y.
Proof.
  induction 1 as [|a b l k Hab Hlk IH]; intros Hy; [done|].
  destruct Hlk as [|a' b' l' k' Hab' Hlk'].
  - cbn in Hy. injection Hy as <-. exists a. by split.
  - rewrite !last_cons in *. cbn in Hy.
    destruct (last k') eqn:Ek.
    + destruct (IH Hy) as (x & Hx & Hr). cbn in Hx.
      exists x. split; [|exact Hr]. cbn. by rewrite Hx.
    + apply last_None in Ek. subst k'. inversion Hlk'; subst.
      cbn in *. injection Hy as <-. eauto.
Qed.

(** X18: when the answer is 200 or 206 and the body received has the
    length the server declared, the invocation ends with the byte
    counter equal to the total size; and if anything was written, the
    last progress line displays that counter, a percentage equal to
    100. *)
Theorem X18_counter_reaches_total w fs0 url dest_path chunk_size response
  declared :
  exit_of w fs0 url (resolve_dest url dest_path)
  = ExitStream response declared ->
  status_code response = 200 \/ status_code response = 206 ->
  total_len (iter_content response chunk_size).1 = declared ->
  0 < declared ->
  current_size (invoke w url dest_path chunk_size fs0).2
  = total_size (invoke w url dest_path chunk_size fs0).2
  /\ exists percent size_mb speed,
       last (progress_lines
               (stdout (invoke w url dest_path chunk_size fs0).2))
       = Some (MsgProgress percent size_mb speed)
       /\ (percent == 100)%Q.
Proof.
  set (dest := resolve_dest url dest_path).
  intros Hx Hs Hlen Hpos.
  destruct (invoke_stream w fs0 url dest_path chunk_size response declared
              Hx) as (_ & _ & Hc & _ & _ & Ht).
  cbn zeta in Hc, Ht. fold dest in Hc, Ht.
  rewrite total_len_filter_nonempty in Hc.
  pose proof (probed_size_nonneg fs0 dest) as HK.
  assert (current_size (invoke w url dest_path chunk_size fs0).2
          = total_size (invoke w url dest_path chunk_size fs0).2) as Heq.
  { rewrite Hc, Ht, Hlen. unfold resume_offset, expected_total.
    destruct Hs as [-> | ->]; cbn; lia. }
  split; [exact Heq|].
  pose proof (progress_lines_follow_writes w fs0 url dest_path chunk_size response declared Hx)
    as Hall.
  fold dest in Hall.
  assert (List.filter nonempty (iter_content response chunk_size).1 <> [])
    as Hne.
  { intros Hnil. rewrite <- total_len_filter_nonempty, Hnil in Hlen.
    rewrite total_len_nil in Hlen. lia. }
  destruct (Forall2_last _ _ _ _ Hall (running_sizes_last _ _ Hne))
    as (m & Hlast & speed & ->).
  do 3 eexists. split; [exact Hlast|].
  rewrite total_len_filter_nonempty, <- Hc, Heq. unfold percent_of.
  assert (0 < total_size (invoke w url dest_path chunk_size fs0).2) as Htot.
  { rewrite Ht. unfold expected_total.
    destruct (status_code response =? 206); lia. }
  assert ((0 <? total_size (invoke w url dest_path chunk_size fs0).2) = true)
    as -> by lia.
  set (t := total_size (invoke w url dest_path chunk_size fs0).2) in *.
  assert (~ (inject_Z t == 0)%Q) as Hnz.
  { unfold Qeq. cbn. lia. }
  change (inject_Z 100) with 100%Q. field. exact Hnz.
Qed.

Lemma X18_counter_reaches_total_witness :
  current_size
    (invoke (fixed_server (whole_response 206 (length_header 3) (zeros 3)))
            example_url None 2 {[ "f.bin" := zeros 2 ]}).2
  = total_size
      (invoke (fixed_server (whole_response 206 (length_header 3) (zeros 3)))
              example_url None 2 {[ "f.bin" := zeros 2 ]}).2
  /\ exists percent size_mb speed,
       last (progress_lines
               (stdout
                  (invoke
                     (fixed_server
                        (whole_response 206 (length_header 3) (zeros 3)))
                     example_url None 2 {[ "f.bin" := zeros 2 ]}).2))
       = Some (MsgProgress percent size_mb speed)
       /\ (percent == 100)%Q.
Proof.
  apply (X18_counter_reaches_total
           (fixed_server (whole_response 206 (length_header 3) (zeros 3)))
           {[ "f.bin" := zeros 2 ]} example_url None 2
           (whole_response 206 (length_header 3) (zeros 3)) 3).
  - vm_compute. reflexivity.
  - right. reflexivity.
  - vm_compute. reflexivity.
  - lia.
Defined.

(** ** A total that cannot be printed *)

(** X19: the probe succeeds and the answer is 200 or 206 with a
    Content-Length that [int] accepts, but the total size it gives (the
    declared length, plus the size the probe found for a 206) is, in
    absolute value, [2^1044 - 2^990] or more.  Line 47 then raises
    [OverflowError] before the destination is opened: the invocation
    returns normally, announces the failure with that error as its
    reason, opens nothing and leaves every file as it was. *)
Theorem X19_unprintable_total_touches_nothing w fs0 url dest_path
  chunk_size response declared :
  probe_fault w fs0 (resolve_dest url dest_path) = None ->
  w_get w url (sent_headers fs0 (resolve_dest url dest_path))
  = inr response ->
  status_code response = 200 \/ status_code response = 206 ->
  declared_length response = Some declared ->
  float_limit
  <= Z.abs (expected_total fs0 (resolve_dest url dest_path) response
                           declared) ->
  (invoke w url dest_path chunk_size fs0).1 = ReturnsNone
  /\ reported_status (stdout (invoke w url dest_path chunk_size fs0).2)
     = Some (Failed total_overflow)
  /\ fobj (invoke w url dest_path chunk_size fs0).2 = None
  /\ fs (invoke w url dest_path chunk_size fs0).2 = fs0.
Proof.
  intros Hp Hg Hs Hd Ht. rewrite invoke_exits.
  unfold exit_of. rewrite Hp, Hg.
  assert ((status_code response =? 416) = false) as ->
    by (destruct Hs as [-> | ->]; reflexivity).
  assert (status_raises response = false) as ->
    by (unfold status_raises; destruct Hs as [-> | ->]; reflexivity).
  rewrite Hd.
  assert (mb_overflows
            (expected_total fs0 (resolve_dest url dest_path) response
                            declared) = true) as ->
    by (unfold mb_overflows; by apply Z.leb_le).
  cbn [run_of_exit fst snd].
  split; [reflexivity|].
  split; [apply (reported_status_handled total_overflow)|].
  split.
  - rewrite (proj1 (proj2 (handled_fields _ _))),
      (proj2 (totalled_fields _ _ _)).
    apply dispatched_fields.
  - rewrite (proj1 (handled_fields _ _)), (proj1 (totalled_fields _ _ _)).
    apply dispatched_fields.
Qed.

Lemma X19_unprintable_total_touches_nothing_witness :
  (invoke (fixed_server
             (whole_response 206 (length_header (- 10 ^ 399)) (zeros 3)))
          example_url None 2 {[ "f.bin" := zeros 2 ]}).1 = ReturnsNone
  /\ reported_status
       (stdout
          (invoke (fixed_server
                     (whole_response 206 (length_header (- 10 ^ 399))
                                     (zeros 3)))
                  example_url None 2 {[ "f.bin" := zeros 2 ]}).2)
     = Some (Failed total_overflow)
  /\ fobj (invoke (fixed_server
                     (whole_response 206 (length_header (- 10 ^ 399))
                                     (zeros 3)))
                  example_url None 2 {[ "f.bin" := zeros 2 ]}).2 = None
  /\ fs (invoke (fixed_server
                   (whole_response 206 (length_header (- 10 ^ 399))
                                   (zeros 3)))
                example_url None 2 {[ "f.bin" := zeros 2 ]}).2
     = {[ "f.bin" := zeros 2 ]}.
Proof.
  apply (X19_unprintable_total_touches_nothing
           (fixed_server
              (whole_response 206 (length_header (- 10 ^ 399)) (zeros 3)))
           {[ "f.bin" := zeros 2 ]} example_url None 2
           (whole_response 206 (length_header (- 10 ^ 399)) (zeros 3))
           (- 10 ^ 399)).
  - vm_compute. reflexivity.
  - vm_compute. reflexivity.
  - right. reflexivity.
  - vm_compute. reflexivity.
  - vm_compute. discriminate.
Defined.

(** ** The percentage displayed *)

Lemma total_len_nonneg l : 0 <= total_len l.
Proof. unfold total_len. lia. Qed.

Lemma running_sizes_bounds written : forall start,
  Forall (fun size => start <= size <= start + total_len written)
         (running_sizes start written).
Proof.
  induction written as [|c rest IH]; intros start; [constructor|].
  cbn [running_sizes]. rewrite total_len_cons.
  pose proof (total_len_nonneg rest) as Hr.
  apply Forall_cons_2; [lia|].
  eapply Forall_impl; [apply IH|]. cbn. intros size Hs. lia.
Qed.

Lemma percent_of_bounds size total :
  0 <= size <= total -> (0 <= percent_of size total <= 100)%Q.
Proof.
  intros Hs. unfold percent_of.
  destruct (0 <? total) eqn:E; [|split; discriminate].
  apply Z.ltb_lt in E.
  destruct total as [|p|p]; try lia.
  unfold Qle, Qdiv, Qmult, Qinv, inject_Z. cbn.
  split; nia.
Qed.

(** X20: when the answer is 200 or 206 and the server does not send more
    bytes than it declared, every progress line displays a percentage
    between 0 and 100. *)
Theorem X20_percentage_within_bounds w fs0 url dest_path chunk_size
  response declared :
  exit_of w fs0 url (resolve_dest url dest_path)
  = ExitStream response declared ->
  status_code response = 200 \/ status_code response = 206 ->
  total_len (iter_content response chunk_size).1 <= declared ->
  Forall
    (fun m =>
       exists percent size_mb speed,
         m = MsgProgress percent size_mb speed
         /\ (0 <= percent <= 100)%Q)
    (progress_lines (stdout (invoke w url dest_path chunk_size fs0).2)).
Proof.
  set (dest := resolve_dest url dest_path).
  intros Hx Hs Hlen.
  destruct (invoke_stream w fs0 url dest_path chunk_size response declared
              Hx) as (_ & _ & _ & _ & _ & Ht).
  cbn zeta in Ht. fold dest in Ht.
  pose proof (probed_size_nonneg fs0 dest) as HK.
  pose proof (progress_lines_follow_writes w fs0 url dest_path chunk_size
                response declared Hx) as Hall.
  fold dest in Hall.
  eapply Forall2_Forall_l; [exact Hall|].
  eapply Forall_impl; [apply running_sizes_bounds|].
  cbn. intros size Hsize m [speed ->].
  do 3 eexists. split; [reflexivity|].
  apply percent_of_bounds.
  rewrite total_len_filter_nonempty in Hsize.
  rewrite Ht. unfold resume_offset, expected_total in *.
  destruct Hs as [Hs | Hs]; rewrite Hs in *; cbn in *; lia.
Qed.

Lemma X20_percentage_within_bounds_witness :
  Forall
    (fun m =>
       exists percent size_mb speed,
         m = MsgProgress percent size_mb speed
         /\ (0 <= percent <= 100)%Q)
    (progress_lines
       (stdout (invoke (fixed_server broken_response) example_url None 2
                       {[ "f.bin" := zeros 1 ]}).2)).
Proof.
  apply (X20_percentage_within_bounds (fixed_server broken_response)
           {[ "f.bin" := zeros 1 ]} example_url None 2 broken_response 5).
  - vm_compute. reflexivity.
  - left. reflexivity.
  - vm_compute. discriminate.
Defined.
